(** * oz-calendar: periodic-note creation from calendar clicks

    A shallow embedding of [src/util/noteCreation.ts] and
    [src/noteHandlers.ts].  The Obsidian host (vault, workspace, plugin
    registry, Templater) is an in-memory model: the vault is a finite map
    from paths to abstract files, and every call the code makes to the host
    is recorded, in order, in a call log.  [async]/[await] is sequential
    composition: each awaited promise is resolved before the next statement
    runs. *)

From Stdlib Require Import ZArith QArith Qround String Ascii List Lia.
From stdpp Require Import base option gmap strings list pretty.

Local Open Scope Z_scope.
Local Open Scope string_scope.
Local Open Scope list_scope.

(** * Part I: the program *)

(** ** JavaScript primitives used by the source *)

Module JS.

(** Truthiness of a string: only the empty string is falsy. *)
Definition truthy (s : string) : bool :=
  match s with
  | EmptyString => false
  | String _ _ => true
  end.

(** [s.split(sep)] for a one-character separator. *)
Fixpoint split (sep : ascii) (s : string) : list string :=
  match s with
  | EmptyString => [EmptyString]
  | String c s' =>
      if Ascii.eqb c sep then EmptyString :: split sep s'
      else match split sep s' with
           | [] => [String c EmptyString]
           | p :: ps => String c p :: ps
           end
  end.

(** Scan for [s.lastIndexOf(c)]: [i] is the index of the head of [s],
    [acc] the last match seen so far. *)
Fixpoint lastIndexOf_from (c : ascii) (s : string) (i acc : Z) : Z :=
  match s with
  | EmptyString => acc
  | String a s' => lastIndexOf_from c s' (i + 1) (if Ascii.eqb a c then i else acc)
  end.

(** [s.lastIndexOf(c)]: [-1] when [c] does not occur. *)
Definition lastIndexOf (c : ascii) (s : string) : Z :=
  lastIndexOf_from c s 0 (-1).

Definition clamp (n len : Z) : Z := Z.max 0 (Z.min n len).

(** [s.substring(a, b)]: both indices are clamped to [0..length] and
    swapped when [a > b]. *)
Definition substring (s : string) (a b : Z) : string :=
  let len := Z.of_nat (String.length s) in
  let a' := clamp a len in
  let b' := clamp b len in
  let lo := Z.min a' b' in
  let hi := Z.max a' b' in
  String.substring (Z.to_nat lo) (Z.to_nat (hi - lo)) s.

(** [s.substring(a)]. *)
Definition substring_from (s : string) (a : Z) : string :=
  substring s a (Z.of_nat (String.length s)).

(** [a || b] on a possibly undefined string: [b] when [a] is undefined
    or empty. *)
Definition or_else (a : option string) (b : string) : string :=
  match a with
  | Some s => if truthy s then s else b
  | None => b
  end.

(** A possibly null string that passed an [if (!s) return] guard. *)
Definition nonempty (a : option string) : option string :=
  match a with
  | Some s => if truthy s then Some s else None
  | None => None
  end.

(** [Math.ceil(a / b)] for integers [a] and [b] of small size, such as
    month indices, where the quotient in doubles rounds up to the same
    integer as the quotient in the rationals, which is the one taken here. *)
Definition Math_ceil_div (a b : Z) : Z :=
  Qceiling (inject_Z a / inject_Z b).

End JS.

(** ** The host: vault, plugin registry, call log *)

(** [TAbstractFile] of the Obsidian API: a file or a folder, with its path. *)
Inductive TAbstractFile : Type :=
| TFile (path : string)
| TFolder (path : string).

(** A community plugin object; [templater] is the truthiness of its
    [templater] property. *)
Record Plugin : Type := { templater : bool }.

(** [app.plugins], whose [plugins] property maps plugin ids to plugins.
    Either level may be undefined: the source reads it through [?.]. *)
Record PluginManager : Type := { manager_plugins : option (gmap string Plugin) }.

(** The options of the core Daily Notes plugin; a field is [None] when
    the property is undefined. *)
Record DailyNotesOptions : Type := {
  options_format : option string;
  options_folder : option string;
  options_template : option string
}.

Record DailyNotesInstance : Type := { options : option DailyNotesOptions }.

(** A core plugin object: its [enabled] flag and its [instance]. *)
Record InternalPlugin : Type := {
  enabled : bool;
  instance : option DailyNotesInstance
}.

Record InternalPluginManager : Type := {
  manager_internalPlugins : option (gmap string InternalPlugin)
}.

Record App : Type := {
  app_plugins : option PluginManager;
  app_internalPlugins : option InternalPluginManager
}.

(** The calls the source makes to the host, with their arguments. *)
Inductive HostCall : Type :=
| GetAbstractFileByPath (path : string)
| PluginLookup (id : string)
| InternalPluginLookup (id : string)
| CreateFolder (path : string)
| VaultCreate (path data : string)
| CreateNewNoteFromTemplate (template : TAbstractFile) (folder filename : string)
    (open_new_note : bool)
| SetTimeout (ms : Z)
| OpenLinkText (linktext sourcePath : string) (newLeaf : bool).

(** [NoteCreationConfig]. *)
Record NoteCreationConfig : Type := {
  fileName : string;
  folder : string;
  templatePath : string
}.

(** A computation against the host: it reads the application, transforms
    the vault, and emits the host calls it made, in order. *)
Definition M (A : Type) : Type :=
  App -> gmap string TAbstractFile -> A * gmap string TAbstractFile * list HostCall.

Definition ret {A : Type} (a : A) : M A := fun _ v => (a, v, []).

Definition bind {A B : Type} (m : M A) (k : A -> M B) : M B :=
  fun app v =>
    let '(a, v1, c1) := m app v in
    let '(b, v2, c2) := k a app v1 in
    (b, v2, c1 ++ c2).

#[global] Instance M_ret : MRet M := @ret.

#[global] Instance M_bind : MBind M := fun A B k m => bind m k.

(** The vault after, and the calls made by, running [m]. *)
Definition vault_after {A : Type} (m : M A) (app : App) (v : gmap string TAbstractFile)
  : gmap string TAbstractFile := snd (fst (m app v)).

Definition calls_of {A : Type} (m : M A) (app : App) (v : gmap string TAbstractFile)
  : list HostCall := snd (m app v).

Definition result_of {A : Type} (m : M A) (app : App) (v : gmap string TAbstractFile)
  : A := fst (fst (m app v)).

(** *** Host primitives *)

Module Host.

(** [vault.getAbstractFileByPath(path)] *)
Definition getAbstractFileByPath (path : string) : M (option TAbstractFile) :=
  fun _ v => (v !! path, v, [GetAbstractFileByPath path]).

(** [vault.createFolder(path)] *)
Definition createFolder (path : string) : M unit :=
  fun _ v => (tt, <[path := TFolder path]> v, [CreateFolder path]).

(** [vault.create(path, data)] *)
Definition create (path data : string) : M unit :=
  fun _ v => (tt, <[path := TFile path]> v, [VaultCreate path data]).

(** [app.workspace.openLinkText(linktext, sourcePath, newLeaf)] *)
Definition openLinkText (linktext sourcePath : string) (newLeaf : bool) : M unit :=
  fun _ v => (tt, v, [OpenLinkText linktext sourcePath newLeaf]).

(** [new Promise((resolve) => setTimeout(resolve, ms))] *)
Definition setTimeout (ms : Z) : M unit :=
  fun _ v => (tt, v, [SetTimeout ms]).

(** [app.plugins?.plugins?.[id]] *)
Definition pluginLookup (id : string) : M (option Plugin) :=
  fun app v =>
    (match app_plugins app with
     | Some pm => match manager_plugins pm with
                  | Some ps => ps !! id
                  | None => None
                  end
     | None => None
     end, v, [PluginLookup id]).

(** [app.internalPlugins?.plugins?.[id]] *)
Definition internalPluginLookup (id : string) : M (option InternalPlugin) :=
  fun app v =>
    (match app_internalPlugins app with
     | Some pm => match manager_internalPlugins pm with
                  | Some ps => ps !! id
                  | None => None
                  end
     | None => None
     end, v, [InternalPluginLookup id]).

(** Where Templater puts a note named [filename] in [folder]. *)
Definition notePath (folder filename : string) : string :=
  if JS.truthy folder then folder +:+ "/" +:+ filename +:+ ".md"
  else filename +:+ ".md".

(** [templater.create_new_note_from_template(template, folder, filename,
    open_new_note)]: Templater creates the note and, when [open_new_note]
    is set, opens it itself. *)
Definition create_new_note_from_template (template : TAbstractFile)
    (folder filename : string) (open_new_note : bool) : M unit :=
  fun _ v =>
    (tt, <[notePath folder filename := TFile (notePath folder filename)]> v,
     [CreateNewNoteFromTemplate template folder filename open_new_note]).

End Host.

(** ** src/util/noteCreation.ts *)

Definition openExistingNote (filePath : string) : M bool :=
  existingFile ← Host.getAbstractFileByPath filePath;
  match existingFile with
  | Some _ => Host.openLinkText filePath "" false;; ret true
  | None => ret false
  end.

Definition getTemplaterPlugin : M (option Plugin) :=
  Host.pluginLookup "templater-obsidian".

Definition getTemplateFile (templatePath : string) : M (option TAbstractFile) :=
  if negb (JS.truthy templatePath) then ret None
  else
    file ← Host.getAbstractFileByPath (templatePath +:+ ".md");
    ret (match file with
         | Some (TFile p) => Some (TFile p)
         | _ => None
         end).

(** One iteration of the loop of [ensureFoldersExist]; returns the new
    [currentPath]. *)
Definition ensureFoldersExist_body (currentPath part : string) : M string :=
  let currentPath := if JS.truthy currentPath then currentPath +:+ "/" +:+ part else part in
  folderExists ← Host.getAbstractFileByPath currentPath;
  match folderExists with
  | Some _ => ret tt
  | None => Host.createFolder currentPath
  end;;
  ret currentPath.

Fixpoint ensureFoldersExist_loop (parts : list string) (currentPath : string) : M unit :=
  match parts with
  | [] => ret tt
  | part :: parts' =>
      currentPath' ← ensureFoldersExist_body currentPath part;
      ensureFoldersExist_loop parts' currentPath'
  end.

Definition ensureFoldersExist (fullDir : string) : M unit :=
  if negb (JS.truthy fullDir) then ret tt
  else
    let parts := JS.split "/" fullDir in
    ensureFoldersExist_loop parts "".

Definition createNoteWithTemplate (filePath fullDir fileName : string)
    (templaterPlugin : option Plugin) (templateFile : option TAbstractFile) : M unit :=
  match templateFile, templaterPlugin with
  | Some tfile, Some {| templater := true |} =>
      let justFileName := JS.substring_from fileName (JS.lastIndexOf "/" fileName + 1) in
      Host.create_new_note_from_template tfile fullDir justFileName true;;
      Host.setTimeout 300
  | _, _ =>
      Host.create filePath "";;
      Host.setTimeout 300;;
      Host.openLinkText filePath "" false
  end.

(** The path computed on the second line of [openOrCreateNote]. *)
Definition filePath_of (config : NoteCreationConfig) : string :=
  if JS.truthy (folder config)
  then folder config +:+ "/" +:+ fileName config +:+ ".md"
  else fileName config +:+ ".md".

Definition openOrCreateNote (config : NoteCreationConfig) : M unit :=
  let filePath := filePath_of config in
  opened ← openExistingNote filePath;
  if (opened : bool) then ret tt
  else
    templaterPlugin ← getTemplaterPlugin;
    templateFile ← getTemplateFile (templatePath config);
    let fullDir := JS.substring filePath 0 (JS.lastIndexOf "/" filePath) in
    ensureFoldersExist fullDir;;
    createNoteWithTemplate filePath fullDir (fileName config) templaterPlugin templateFile.

(** ** dayjs *)

(** The part of the dayjs library the handlers use.  [dayjs text fmt] is
    [dayjs(text, fmt)]; [month] is the getter [d.month()] and [set_month]
    the setter [d.month(m)]; [startOf_month] is [d.startOf('month')]. *)
Class DayjsLib : Type := {
  Dayjs : Type;
  dayjs : string -> string -> Dayjs;
  isValid : Dayjs -> bool;
  format : Dayjs -> string -> string;
  year : Dayjs -> Z;
  month : Dayjs -> Z;
  date : Dayjs -> Z;
  set_month : Dayjs -> Z -> Dayjs;
  startOf_month : Dayjs -> Dayjs
}.

(** What the handlers rely on from dayjs: the empty string is not a date;
    setting a month in [0..11] sets that month and keeps the year; the
    start of a month is its first day. *)
Class DayjsLaws (D : DayjsLib) : Prop := {
  dayjs_empty_invalid : forall fmt, isValid (dayjs "" fmt) = false;
  month_set_month : forall d m, 0 <= m <= 11 -> month (set_month d m) = m;
  year_set_month : forall d m, 0 <= m <= 11 -> year (set_month d m) = year d;
  month_startOf_month : forall d, month (startOf_month d) = month d;
  year_startOf_month : forall d, year (startOf_month d) = year d;
  date_startOf_month : forall d, date (startOf_month d) = 1
}.

(** ** The calendar markup, as far as the handlers inspect it *)

(** An [abbr[aria-label]] element and what [getAttribute('aria-label')]
    returns on it. *)
Record Abbr : Type := { aria_label : option string }.

Record Span : Type := { span_textContent : option string }.

(** An element: [element_id] stands for its identity ([===]);
    [abbr] is [querySelector('abbr[aria-label]')] and [month_year_span] is
    [querySelector('.oz-calendar-month-year')]. *)
Record Element : Type := {
  element_id : nat;
  textContent : option string;
  abbr : option Abbr;
  month_year_span : option Span
}.

(** The two [document.querySelectorAll] results of [handleWeekNumberClick]. *)
Record Document : Type := {
  weekNumberTiles : list Element;
  dayTiles : list Element
}.

(** The target of a mousedown on the navigation bar: the results of its
    three [closest] queries. *)
Record NavTarget : Type := {
  closest_label : option Element;
  closest_quarter : bool;
  closest_month_year : bool
}.

Record Settings : Type := {
  weeklyNoteFormat : string;
  weeklyNoteFolder : string;
  weeklyNoteTemplate : string;
  monthlyNoteFormat : string;
  monthlyNoteFolder : string;
  monthlyNoteTemplate : string;
  quarterlyNoteFormat : string;
  quarterlyNoteFolder : string;
  quarterlyNoteTemplate : string
}.

(** ** src/noteHandlers.ts

    The handlers are given what they read from the event and the page.
    [ev.stopPropagation()], [ev.preventDefault()] and
    [menu.showAtPosition] act on the event and the screen only and are
    left out; a menu is returned instead of shown. *)

Section CalendarNoteHandlers.

Context {D : DayjsLib}.
Variable settings : Settings.
Variable document : Document.

Fixpoint parseDate (text : string) (formats : list string) : option Dayjs :=
  match formats with
  | [] => None
  | format :: formats' =>
      let date := dayjs text format in
      if isValid date then Some date else parseDate text formats'
  end.

(** What a menu item does when clicked. *)
Inductive MenuAction : Type :=
| OpenCreateNoteModal (date : Dayjs)
| RunAsync (callback : M unit).

Record MenuItem : Type := {
  title : string;
  icon : string;
  onClick : MenuAction
}.

(** The [onClick] callback of the daily-note menu item. *)
Definition createDailyNote (dailyNotesPlugin : InternalPlugin) (dayjsDate : Dayjs)
  : M unit :=
  match instance dailyNotesPlugin with
  | Some {| options := Some options |} =>
      openOrCreateNote
        {| fileName := format dayjsDate (JS.or_else (options_format options) "YYYY-MM-DD");
           folder := JS.or_else (options_folder options) "";
           templatePath := JS.or_else (options_template options) "" |}
  | _ => ret tt
  end.

(** Returns the menu it shows, or [None] when it returns early. *)
Definition handleMonthDayContextMenu (delegateTarget : Element)
  : M (option (list MenuItem)) :=
  match abbr delegateTarget with
  | None => ret None
  | Some abbrItem =>
      match JS.nonempty (aria_label abbrItem) with
      | None => ret None
      | Some destDate =>
          let dayjsDate := dayjs destDate "MMMM D, YYYY" in
          let createNote :=
            {| title := "Create a note for this date"; icon := "create-new";
               onClick := OpenCreateNoteModal dayjsDate |} in
          dailyNotesPlugin ← Host.internalPluginLookup "daily-notes";
          templaterPlugin ← getTemplaterPlugin;
          match dailyNotesPlugin, templaterPlugin with
          | Some daily, Some {| templater := true |} =>
              if enabled daily
              then ret (Some [createNote;
                              {| title := "Create daily note for this date";
                                 icon := "calendar-plus";
                                 onClick := RunAsync (createDailyNote daily dayjsDate) |}])
              else ret (Some [createNote])
          | _, _ => ret (Some [createNote])
          end
      end
  end.

(** The [forEach] of [handleWeekNumberClick]: [index] is the index of the
    head of [tiles], [weekIndex] the value assigned so far. *)
Fixpoint findWeekIndex (tiles : list Element) (delegateTarget : Element)
    (index weekIndex : Z) : Z :=
  match tiles with
  | [] => weekIndex
  | tile :: tiles' =>
      findWeekIndex tiles' delegateTarget (index + 1)
        (if Nat.eqb (element_id tile) (element_id delegateTarget) then index else weekIndex)
  end.

Definition handleWeekNumberClick (delegateTarget : Element) : M unit :=
  let weekIndex := findWeekIndex (weekNumberTiles document) delegateTarget 0 (-1) in
  if (weekIndex =? -1)%Z then ret tt
  else
    match dayTiles document !! Z.to_nat (weekIndex * 7) with
    | None => ret tt
    | Some firstDayOfWeek =>
        match abbr firstDayOfWeek with
        | None => ret tt
        | Some abbrEl =>
            let dateText := JS.or_else (aria_label abbrEl) "" in
            let weekDate := dayjs dateText "MMMM D, YYYY" in
            if negb (isValid weekDate) then ret tt
            else
              openOrCreateNote
                {| fileName := format weekDate (weeklyNoteFormat settings);
                   folder := weeklyNoteFolder settings;
                   templatePath := weeklyNoteTemplate settings |}
        end
    end.

Definition handleMonthLabelClick (delegateTarget : Element) : M unit :=
  match JS.nonempty (textContent delegateTarget) with
  | None => ret tt
  | Some labelText =>
      match parseDate labelText ["D MMM YYYY"; "DD MMM YYYY"; "MMM YYYY"] with
      | None => ret tt
      | Some monthDate =>
          openOrCreateNote
            {| fileName := format (startOf_month monthDate) (monthlyNoteFormat settings);
               folder := monthlyNoteFolder settings;
               templatePath := monthlyNoteTemplate settings |}
      end
  end.

(** [monthYearSpan?.textContent] *)
Definition monthYear_text (labelButton : Element) : option string :=
  match month_year_span labelButton with
  | Some monthYearSpan => span_textContent monthYearSpan
  | None => None
  end.

Definition handleMonthClick (labelButton : Element) : M unit :=
  match JS.nonempty (monthYear_text labelButton) with
  | None => ret tt
  | Some labelText =>
      match parseDate labelText ["MMM YYYY"; "MMMM YYYY"] with
      | None => ret tt
      | Some monthDate =>
          openOrCreateNote
            {| fileName := format (startOf_month monthDate) (monthlyNoteFormat settings);
               folder := monthlyNoteFolder settings;
               templatePath := monthlyNoteTemplate settings |}
      end
  end.

(** [quarterStartMonth] for the zero-based month [m]. *)
Definition quarterStartMonth (m : Z) : Z :=
  let quarter := JS.Math_ceil_div (m + 1) 3 in
  (quarter - 1) * 3.

Definition quarterDate (monthDate : Dayjs) : Dayjs :=
  startOf_month (set_month monthDate (quarterStartMonth (month monthDate))).

Definition handleQuarterClick (labelButton : Element) : M unit :=
  match JS.nonempty (monthYear_text labelButton) with
  | None => ret tt
  | Some labelText =>
      match parseDate labelText ["MMM YYYY"; "MMMM YYYY"] with
      | None => ret tt
      | Some monthDate =>
          openOrCreateNote
            {| fileName := format (quarterDate monthDate) (quarterlyNoteFormat settings);
               folder := quarterlyNoteFolder settings;
               templatePath := quarterlyNoteTemplate settings |}
      end
  end.

Definition handleMonthNavLabelClickCapture (target : NavTarget) : M unit :=
  match closest_label target with
  | None => ret tt
  | Some labelButton =>
      if closest_quarter target then handleQuarterClick labelButton
      else if closest_month_year target then handleMonthClick labelButton
      else handleMonthClick labelButton
  end.

End CalendarNoteHandlers.

(** * Part II: vocabulary of the properties *)

(** ** Classifying host calls *)

(** A call that creates the note file: [vault.create] or a template
    instantiation. *)
Definition is_creation (c : HostCall) : bool :=
  match c with
  | VaultCreate _ _ | CreateNewNoteFromTemplate _ _ _ _ => true
  | _ => false
  end.

Definition is_vault_create (c : HostCall) : bool :=
  match c with VaultCreate _ _ => true | _ => false end.

Definition is_template_instantiation (c : HostCall) : bool :=
  match c with CreateNewNoteFromTemplate _ _ _ _ => true | _ => false end.

Definition is_create_folder (c : HostCall) : bool :=
  match c with CreateFolder _ => true | _ => false end.

(** A call that opens a note in the editor: [openLinkText], or a template
    instantiation whose [open_new_note] argument is [true]. *)
Definition opens_editor (c : HostCall) : bool :=
  match c with
  | OpenLinkText _ _ _ => true
  | CreateNewNoteFromTemplate _ _ _ o => o
  | _ => false
  end.

Definition is_delay (c : HostCall) : bool :=
  match c with SetTimeout _ => true | _ => false end.

Definition count_calls (p : HostCall -> bool) (cs : list HostCall) : nat :=
  length (List.filter p cs).

Definition is_folder_call (c : HostCall) : bool :=
  match c with
  | GetAbstractFileByPath _ | CreateFolder _ => true
  | _ => false
  end.

(** Whether every call that opens the editor comes after a delay;
    [delayed] tells whether a delay was already seen. *)
Fixpoint opens_after_delay (delayed : bool) (calls : list HostCall) : bool :=
  match calls with
  | [] => true
  | c :: cs =>
      (if opens_editor c then delayed else true)
      && opens_after_delay (delayed || is_delay c) cs
  end.

(** ** What [openOrCreateNote] computes on the way *)

(** The condition [templateFile && templaterPlugin?.templater]. *)
Definition uses_template (templaterPlugin : option Plugin)
    (templateFile : option TAbstractFile) : bool :=
  match templateFile, templaterPlugin with
  | Some _, Some p => templater p
  | _, _ => false
  end.

(** The directory part of the resolved path. *)
Definition fullDir_of (config : NoteCreationConfig) : string :=
  JS.substring (filePath_of config) 0 (JS.lastIndexOf "/" (filePath_of config)).

(** Whether [createNoteWithTemplate] takes its Templater branch, for the
    plugin and template file that [openOrCreateNote] hands to it. *)
Definition template_used (config : NoteCreationConfig) (app : App)
    (v : gmap string TAbstractFile) : bool :=
  uses_template (result_of getTemplaterPlugin app v)
    (result_of (getTemplateFile (templatePath config)) app v).

Definition justFileName_of (config : NoteCreationConfig) : string :=
  JS.substring_from (fileName config) (JS.lastIndexOf "/" (fileName config) + 1).

(** The calls of [createNoteWithTemplate] inside [openOrCreateNote]. *)
Definition creation_calls (config : NoteCreationConfig) (app : App)
    (v : gmap string TAbstractFile) : list HostCall :=
  match result_of (getTemplateFile (templatePath config)) app v with
  | Some t =>
      if template_used config app v
      then [CreateNewNoteFromTemplate t (fullDir_of config) (justFileName_of config) true;
            SetTimeout 300]
      else [VaultCreate (filePath_of config) ""; SetTimeout 300;
            OpenLinkText (filePath_of config) "" false]
  | None =>
      [VaultCreate (filePath_of config) ""; SetTimeout 300;
       OpenLinkText (filePath_of config) "" false]
  end.

Definition template_lookup_calls (config : NoteCreationConfig) : list HostCall :=
  if JS.truthy (templatePath config)
  then [GetAbstractFileByPath (templatePath config +:+ ".md")]
  else [].

(** Everything [openOrCreateNote] does before [createNoteWithTemplate]. *)
Definition preparation_calls (config : NoteCreationConfig) (app : App)
    (v : gmap string TAbstractFile) : list HostCall :=
  [GetAbstractFileByPath (filePath_of config); PluginLookup "templater-obsidian"]
  ++ template_lookup_calls config
  ++ calls_of (ensureFoldersExist (fullDir_of config)) app v.

(** A template file resolves from the configured template path: the path
    is not empty and the vault holds a file at [templatePath + ".md"]. *)
Definition template_resolves (config : NoteCreationConfig)
    (v : gmap string TAbstractFile) : Prop :=
  templatePath config <> ""
  /\ exists p, v !! (templatePath config +:+ ".md") = Some (TFile p).

(** The Templater plugin is installed and exposes a [templater] object. *)
Definition templater_installed (app : App) : Prop :=
  exists pm ps plugin,
    app_plugins app = Some pm
    /\ manager_plugins pm = Some ps
    /\ ps !! "templater-obsidian" = Some plugin
    /\ templater plugin = true.

(** ** The paths [ensureFoldersExist] visits *)

(** The value [currentPath] takes in one iteration of the loop. *)
Definition next_path (currentPath part : string) : string :=
  if JS.truthy currentPath then currentPath +:+ "/" +:+ part else part.

(** The successive values of [currentPath] over the loop. *)
Fixpoint visited (parts : list string) (currentPath : string) : list string :=
  match parts with
  | [] => []
  | part :: parts' =>
      next_path currentPath part :: visited parts' (next_path currentPath part)
  end.

(** What the loop does on a list of paths: look each one up and create a
    folder there when the lookup finds nothing. *)
Fixpoint ensure_calls (paths : list string) (v : gmap string TAbstractFile)
  : list HostCall :=
  match paths with
  | [] => []
  | p :: ps =>
      match v !! p with
      | Some _ => GetAbstractFileByPath p :: ensure_calls ps v
      | None =>
          GetAbstractFileByPath p :: CreateFolder p
            :: ensure_calls ps (<[p := TFolder p]> v)
      end
  end.

Fixpoint ensure_vault (paths : list string) (v : gmap string TAbstractFile)
  : gmap string TAbstractFile :=
  match paths with
  | [] => v
  | p :: ps =>
      match v !! p with
      | Some _ => ensure_vault ps v
      | None => ensure_vault ps (<[p := TFolder p]> v)
      end
  end.

(** The calls made for one path, judged against a fixed vault. *)
Definition check_then_create (v : gmap string TAbstractFile) (p : string)
  : list HostCall :=
  GetAbstractFileByPath p ::
  match v !! p with
  | Some _ => []
  | None => [CreateFolder p]
  end.

(** The prefixes of [s] that end where a path segment ends: [s] itself and
    every [q] with [s = q/...], shortest first. *)
Fixpoint path_prefixes (s : string) : list string :=
  match s with
  | EmptyString => [EmptyString]
  | String c s' =>
      if Ascii.eqb c "/"
      then EmptyString :: List.map (String c) (path_prefixes s')
      else List.map (String c) (path_prefixes s')
  end.

(** The running joins [first], [first/p1], [first/p1/p2], ... *)
Fixpoint joins (first : string) (rest : list string) : list string :=
  first ::
  match rest with
  | [] => []
  | p :: ps => joins (first +:+ "/" +:+ p) ps
  end.

(** A path whose first segment is non-empty: it is not empty and does not
    start with a slash. *)
Definition relative_path (s : string) : bool :=
  match s with
  | EmptyString => false
  | String c _ => negb (Ascii.eqb c "/")
  end.

(** ** The date strings the handlers recover *)

(** The date string [handleWeekNumberClick] recovers from the markup: the
    [aria-label] of the first day tile of the clicked week's row. *)
Definition weekDateText (document : Document) (delegateTarget : Element)
  : option string :=
  let weekIndex := findWeekIndex (weekNumberTiles document) delegateTarget 0 (-1) in
  if (weekIndex =? -1)%Z then None
  else
    match dayTiles document !! Z.to_nat (weekIndex * 7) with
    | Some firstDayOfWeek =>
        match abbr firstDayOfWeek with
        | Some abbrEl => aria_label abbrEl
        | None => None
        end
    | None => None
    end.

(** The date string [handleMonthDayContextMenu] recovers from the markup. *)
Definition dayText (delegateTarget : Element) : option string :=
  match abbr delegateTarget with
  | Some abbrItem => aria_label abbrItem
  | None => None
  end.

(** A recovered date string is usable when it is present, not empty, and
    valid under one of the formats tried. *)
Definition usable {D : DayjsLib} (text : option string) (formats : list string) : bool :=
  match JS.nonempty text with
  | Some s => List.existsb (fun fmt => isValid (dayjs s fmt)) formats
  | None => false
  end.

(** ** Concrete hosts and a small calendar, for the examples *)

Definition noPlugins : App := {| app_plugins := None; app_internalPlugins := None |}.

Definition withTemplater : App :=
  {| app_plugins :=
       Some {| manager_plugins :=
                 Some {[ "templater-obsidian" := {| templater := true |} ]} |};
     app_internalPlugins := None |}.

Definition dailyNote : NoteCreationConfig :=
  {| fileName := "2024-01-01"; folder := "Daily"; templatePath := "Templates/Daily" |}.

Definition vaultWithTemplate : gmap string TAbstractFile :=
  {[ "Templates/Daily.md" := TFile "Templates/Daily.md" ]}.

Definition vaultWithNote : gmap string TAbstractFile :=
  {[ "Daily/2024-01-01.md" := TFile "Daily/2024-01-01.md" ]}.

Definition emptyDocument : Document := {| weekNumberTiles := []; dayTiles := [] |}.

(** Year, zero-based month and day of the month; [sd_valid] is [isValid]. *)
Record SimpleDate : Type := {
  sd_valid : bool;
  sd_year : Z;
  sd_month : Z;
  sd_date : Z
}.

Definition invalidDate : SimpleDate :=
  {| sd_valid := false; sd_year := 0; sd_month := 0; sd_date := 0 |}.

Definition month_of_abbreviation (s : string) : option Z :=
  match s with
  | "Jan" => Some 0 | "Feb" => Some 1 | "Mar" => Some 2 | "Apr" => Some 3
  | "May" => Some 4 | "Jun" => Some 5 | "Jul" => Some 6 | "Aug" => Some 7
  | "Sep" => Some 8 | "Oct" => Some 9 | "Nov" => Some 10 | "Dec" => Some 11
  | _ => None
  end.

Fixpoint decimal (s : string) (acc : Z) : option Z :=
  match s with
  | EmptyString => Some acc
  | String c s' =>
      let n := Z.of_nat (nat_of_ascii c) - 48 in
      if ((0 <=? n) && (n <=? 9))%Z then decimal s' (acc * 10 + n) else None
  end.

(** Parses the one format ["MMM YYYY"], as in ["May 2024"]. *)
Definition simple_dayjs (text fmt : string) : SimpleDate :=
  match fmt with
  | "MMM YYYY" =>
      match month_of_abbreviation (String.substring 0 3 text),
            String.substring 3 1 text,
            decimal (String.substring 4 4 text) 0 with
      | Some m, " ", Some y =>
          if Nat.eqb (String.length text) 8
          then {| sd_valid := true; sd_year := y; sd_month := m; sd_date := 1 |}
          else invalidDate
      | _, _, _ => invalidDate
      end
  | _ => invalidDate
  end.

(** Prints year and month, whatever the format asked for. *)
Definition simple_format (d : SimpleDate) (fmt : string) : string :=
  if sd_valid d then pretty (sd_year d) +:+ "-" +:+ pretty (sd_month d + 1)
  else "Invalid Date".

Definition simple_set_month (d : SimpleDate) (m : Z) : SimpleDate :=
  {| sd_valid := sd_valid d; sd_year := sd_year d + m / 12;
     sd_month := m mod 12; sd_date := sd_date d |}.

Definition simple_startOf_month (d : SimpleDate) : SimpleDate :=
  {| sd_valid := sd_valid d; sd_year := sd_year d;
     sd_month := sd_month d; sd_date := 1 |}.

#[local] Instance simpleDayjs : DayjsLib := {|
  Dayjs := SimpleDate;
  dayjs := simple_dayjs;
  isValid := sd_valid;
  format := simple_format;
  year := sd_year;
  month := sd_month;
  date := sd_date;
  set_month := simple_set_month;
  startOf_month := simple_startOf_month
|}.

Definition someSettings : Settings :=
  {| weeklyNoteFormat := "GGGG-[W]WW"; weeklyNoteFolder := "Weekly"; weeklyNoteTemplate := "";
     monthlyNoteFormat := "YYYY-MM"; monthlyNoteFolder := "Monthly"; monthlyNoteTemplate := "";
     quarterlyNoteFormat := "YYYY-[Q]Q"; quarterlyNoteFolder := "Quarterly";
     quarterlyNoteTemplate := "" |}.

Definition labelOf (text : option string) : Element :=
  {| element_id := 0; textContent := None; abbr := None;
     month_year_span := Some {| span_textContent := text |} |}.

(** ** Further vocabulary: strings, paths, replayed runs *)

(** Whether the character [c] occurs in [s]. *)
Fixpoint occurs (c : ascii) (s : string) : bool :=
  match s with
  | EmptyString => false
  | String a s' => Ascii.eqb a c || occurs c s'
  end.

(** The characters of a list of parts, one more for each part. *)
Fixpoint total_length (parts : list string) : nat :=
  match parts with
  | [] => 0
  | p :: ps => S (String.length p + total_length ps)
  end.

(** Every path [ensureFoldersExist] looks up on [fullDir], in order. *)
Definition visited_paths (fullDir : string) : list string :=
  if JS.truthy fullDir then visited (JS.split "/" fullDir) "" else [].

(** The folders a call log creates, in order. *)
Fixpoint created_folders (calls : list HostCall) : list string :=
  match calls with
  | [] => []
  | CreateFolder p :: cs => p :: created_folders cs
  | _ :: cs => created_folders cs
  end.

(** The core Daily Notes plugin is present and enabled. *)
Definition daily_notes_enabled (app : App) : Prop :=
  exists pm ps daily,
    app_internalPlugins app = Some pm
    /\ manager_internalPlugins pm = Some ps
    /\ ps !! "daily-notes" = Some daily
    /\ enabled daily = true.

(** A computation that returns at once or is one [openOrCreateNote]. *)
Definition returns_or_opens (m : M unit) : Prop :=
  m = ret tt \/ exists config, m = openOrCreateNote config.

(** The config each periodic handler hands to [openOrCreateNote]. *)
Definition weeklyConfig {D : DayjsLib} (settings : Settings) (weekDate : Dayjs)
  : NoteCreationConfig :=
  {| fileName := format weekDate (weeklyNoteFormat settings);
     folder := weeklyNoteFolder settings;
     templatePath := weeklyNoteTemplate settings |}.

Definition monthlyConfig {D : DayjsLib} (settings : Settings) (monthDate : Dayjs)
  : NoteCreationConfig :=
  {| fileName := format (startOf_month monthDate) (monthlyNoteFormat settings);
     folder := monthlyNoteFolder settings;
     templatePath := monthlyNoteTemplate settings |}.

Definition quarterlyConfig {D : DayjsLib} (settings : Settings) (monthDate : Dayjs)
  : NoteCreationConfig :=
  {| fileName := format (quarterDate monthDate) (quarterlyNoteFormat settings);
     folder := quarterlyNoteFolder settings;
     templatePath := quarterlyNoteTemplate settings |}.

(** A page with two week rows, and a day tile that carries a label. *)
Definition weekTile (n : nat) : Element :=
  {| element_id := n; textContent := None; abbr := None; month_year_span := None |}.

Definition dayTile (n : nat) (label : option string) : Element :=
  {| element_id := n; textContent := None;
     abbr := Some {| aria_label := label |}; month_year_span := None |}.

(** Daily Notes, enabled, with its folder set and the rest left undefined. *)
Definition dailyNotesOptions : DailyNotesOptions :=
  {| options_format := None; options_folder := Some "Daily"; options_template := None |}.

Definition enabledDailyNotes : InternalPlugin :=
  {| enabled := true; instance := Some {| options := Some dailyNotesOptions |} |}.

Definition dailyNotesRegistry : gmap string InternalPlugin :=
  {[ "daily-notes" := enabledDailyNotes ]}.

Definition templaterRegistry : gmap string Plugin :=
  {[ "templater-obsidian" := {| templater := true |} ]}.

Definition withDailyNotes : App :=
  {| app_plugins := Some {| manager_plugins := Some templaterRegistry |};
     app_internalPlugins :=
       Some {| manager_internalPlugins := Some dailyNotesRegistry |} |}.

(** A page of two week rows; the days of a row carry the label of the
    row's first day. *)
Definition twoWeekPage : Document :=
  {| weekNumberTiles := [weekTile 1; weekTile 2];
     dayTiles :=
       List.map (fun n => dayTile n (Some "January 1, 2024")) [10; 11; 12; 13; 14; 15; 16]%nat
       ++ List.map (fun n => dayTile n (Some "January 8, 2024")) [17; 18; 19; 20; 21; 22; 23]%nat |}.

(** * Part III: properties *)

(** ** The embedding on concrete inputs *)

Example split_example : JS.split "/" "2024/01-Jan" = ["2024"; "01-Jan"].
Proof. reflexivity. Qed.

Example split_leading : JS.split "/" "/a" = [""; "a"].
Proof. reflexivity. Qed.

Example lastIndexOf_example : JS.lastIndexOf "/" "a/b/c.md" = 3.
Proof. reflexivity. Qed.

Example lastIndexOf_absent : JS.lastIndexOf "/" "c.md" = -1.
Proof. reflexivity. Qed.

Example substring_negative : JS.substring "c.md" 0 (-1) = "".
Proof. reflexivity. Qed.

Example open_or_create_empty :
  calls_of (openOrCreateNote
              {| fileName := "2024-01-01"; folder := "Daily/2024"; templatePath := "" |})
    noPlugins ∅
  = [ GetAbstractFileByPath "Daily/2024/2024-01-01.md";
      PluginLookup "templater-obsidian";
      GetAbstractFileByPath "Daily"; CreateFolder "Daily";
      GetAbstractFileByPath "Daily/2024"; CreateFolder "Daily/2024";
      VaultCreate "Daily/2024/2024-01-01.md" "";
      SetTimeout 300;
      OpenLinkText "Daily/2024/2024-01-01.md" "" false ].
Proof. vm_compute. reflexivity. Qed.

Example path_prefixes_nested :
  path_prefixes "2024/01-Jan/w" = ["2024"; "2024/01-Jan"; "2024/01-Jan/w"].
Proof. reflexivity. Qed.

Example path_prefixes_leading : path_prefixes "/a" = [""; "/a"].
Proof. reflexivity. Qed.

Example simple_dayjs_may : simple_dayjs "May 2024" "MMM YYYY"
  = {| sd_valid := true; sd_year := 2024; sd_month := 4; sd_date := 1 |}.
Proof. vm_compute. reflexivity. Qed.

Example quarter_click_may :
  calls_of (handleQuarterClick someSettings (labelOf (Some "May 2024"))) noPlugins ∅
  = [ GetAbstractFileByPath "Quarterly/2024-4.md";
      PluginLookup "templater-obsidian";
      GetAbstractFileByPath "Quarterly"; CreateFolder "Quarterly";
      VaultCreate "Quarterly/2024-4.md" ""; SetTimeout 300;
      OpenLinkText "Quarterly/2024-4.md" "" false ].
Proof. vm_compute. reflexivity. Qed.

(** ** Running the computations *)

Lemma bind_run {A B : Type} (m : M A) (k : A -> M B) app v :
  (m ≫= k) app v =
  let '(a, v1, c1) := m app v in
  let '(b, v2, c2) := k a app v1 in
  (b, v2, c1 ++ c2).
Proof. reflexivity. Qed.

Lemma openExistingNote_run filePath app v :
  openExistingNote filePath app v =
  match v !! filePath with
  | Some _ => (true, v, [GetAbstractFileByPath filePath; OpenLinkText filePath "" false])
  | None => (false, v, [GetAbstractFileByPath filePath])
  end.
Proof.
  unfold openExistingNote. rewrite bind_run. unfold Host.getAbstractFileByPath.
  destruct (v !! filePath); reflexivity.
Qed.

Lemma getTemplaterPlugin_run app v :
  getTemplaterPlugin app v =
  (result_of getTemplaterPlugin app v, v, [PluginLookup "templater-obsidian"]).
Proof. reflexivity. Qed.

Lemma getTemplateFile_run templatePath app v :
  getTemplateFile templatePath app v =
  (result_of (getTemplateFile templatePath) app v, v,
   if JS.truthy templatePath then [GetAbstractFileByPath (templatePath +:+ ".md")] else []).
Proof.
  unfold result_of, getTemplateFile. destruct (JS.truthy templatePath); reflexivity.
Qed.

(** [getTemplateFile] returns a file exactly when [templatePath] is
    non-empty and the vault holds a [TFile] at [templatePath + ".md"]. *)
Lemma getTemplateFile_result templatePath app v :
  result_of (getTemplateFile templatePath) app v =
  if JS.truthy templatePath then
    match v !! (templatePath +:+ ".md") with
    | Some (TFile p) => Some (TFile p)
    | _ => None
    end
  else None.
Proof.
  unfold result_of, getTemplateFile. destruct (JS.truthy templatePath); reflexivity.
Qed.

Lemma createNoteWithTemplate_run filePath fullDir fileName plugin tfile app v :
  createNoteWithTemplate filePath fullDir fileName plugin tfile app v =
  match tfile with
  | Some t =>
      if uses_template plugin tfile then
        let justFileName := JS.substring_from fileName (JS.lastIndexOf "/" fileName + 1) in
        (tt, <[Host.notePath fullDir justFileName := TFile (Host.notePath fullDir justFileName)]> v,
         [CreateNewNoteFromTemplate t fullDir justFileName true; SetTimeout 300])
      else
        (tt, <[filePath := TFile filePath]> v,
         [VaultCreate filePath ""; SetTimeout 300; OpenLinkText filePath "" false])
  | None =>
      (tt, <[filePath := TFile filePath]> v,
       [VaultCreate filePath ""; SetTimeout 300; OpenLinkText filePath "" false])
  end.
Proof.
  unfold createNoteWithTemplate.
  destruct tfile as [t|]; [|reflexivity].
  destruct plugin as [[[|]]|]; reflexivity.
Qed.

Lemma openOrCreateNote_existing config app v f :
  v !! filePath_of config = Some f ->
  openOrCreateNote config app v =
  (tt, v, [GetAbstractFileByPath (filePath_of config);
           OpenLinkText (filePath_of config) "" false]).
Proof.
  intros Hf. unfold openOrCreateNote. rewrite bind_run, openExistingNote_run, Hf.
  reflexivity.
Qed.

Lemma openOrCreateNote_missing config app v :
  v !! filePath_of config = None ->
  openOrCreateNote config app v =
  let plugin := result_of getTemplaterPlugin app v in
  let tfile := result_of (getTemplateFile (templatePath config)) app v in
  let '(_, v1, folders) := ensureFoldersExist (fullDir_of config) app v in
  let '(_, v2, created) :=
    createNoteWithTemplate (filePath_of config) (fullDir_of config) (fileName config)
      plugin tfile app v1 in
  (tt, v2,
   [GetAbstractFileByPath (filePath_of config); PluginLookup "templater-obsidian"]
   ++ (if JS.truthy (templatePath config)
       then [GetAbstractFileByPath (templatePath config +:+ ".md")] else [])
   ++ folders ++ created).
Proof.
  intros Hf. unfold openOrCreateNote.
  rewrite bind_run, openExistingNote_run, Hf.
  rewrite bind_run, getTemplaterPlugin_run.
  rewrite bind_run, getTemplateFile_run.
  rewrite bind_run. fold (fullDir_of config).
  destruct (ensureFoldersExist (fullDir_of config) app v) as [[[] v1] folders].
  cbv zeta.
  destruct (createNoteWithTemplate _ _ _ _ _ app v1) as [[[] v2] created].
  reflexivity.
Qed.

(** ** [ensureFoldersExist] *)

Lemma ensureFoldersExist_loop_run parts currentPath app v :
  ensureFoldersExist_loop parts currentPath app v =
  (tt, ensure_vault (visited parts currentPath) v,
   ensure_calls (visited parts currentPath) v).
Proof.
  revert currentPath v.
  induction parts as [|part parts IH]; intros currentPath v; [reflexivity|].
  cbn [ensureFoldersExist_loop visited ensure_vault ensure_calls].
  rewrite bind_run. unfold ensureFoldersExist_body.
  fold (next_path currentPath part).
  rewrite !bind_run. unfold Host.getAbstractFileByPath.
  destruct (v !! next_path currentPath part) as [f|] eqn:E;
    unfold mbind, M_bind, bind, ret, Host.createFolder; cbn;
    rewrite IH; reflexivity.
Qed.

Lemma ensureFoldersExist_run fullDir app v :
  ensureFoldersExist fullDir app v =
  if JS.truthy fullDir
  then (tt, ensure_vault (visited (JS.split "/" fullDir) "") v,
        ensure_calls (visited (JS.split "/" fullDir) "") v)
  else (tt, v, []).
Proof.
  unfold ensureFoldersExist. destruct (JS.truthy fullDir); cbn [negb].
  - apply ensureFoldersExist_loop_run.
  - reflexivity.
Qed.

Lemma ensure_calls_folder paths v :
  Forall (fun c => is_folder_call c = true) (ensure_calls paths v).
Proof.
  revert v. induction paths as [|p ps IH]; intros v; cbn; [constructor|].
  destruct (v !! p); repeat constructor; apply IH.
Qed.

Lemma ensureFoldersExist_folder_calls fullDir app v :
  Forall (fun c => is_folder_call c = true) (calls_of (ensureFoldersExist fullDir) app v).
Proof.
  unfold calls_of. rewrite ensureFoldersExist_run.
  destruct (JS.truthy fullDir); cbn; [apply ensure_calls_folder | constructor].
Qed.

Lemma ensure_vault_mono paths v q :
  is_Some (v !! q) -> is_Some (ensure_vault paths v !! q).
Proof.
  revert v. induction paths as [|p ps IH]; intros v Hq; cbn; [exact Hq|].
  destruct (v !! p) eqn:E; apply IH; [exact Hq|].
  destruct (decide (p = q)) as [->|Hne].
  - rewrite lookup_insert_eq. eauto.
  - rewrite lookup_insert_ne by exact Hne. exact Hq.
Qed.

Lemma ensure_vault_exists paths v q :
  In q paths -> is_Some (ensure_vault paths v !! q).
Proof.
  revert v. induction paths as [|p ps IH]; intros v Hin; [destruct Hin|].
  cbn. destruct Hin as [->|Hin].
  - destruct (v !! q) eqn:E; apply ensure_vault_mono.
    + rewrite E. eauto.
    + rewrite lookup_insert_eq. eauto.
  - destruct (v !! p); apply IH; exact Hin.
Qed.

Lemma flat_map_ext_on {A B : Type} (f g : A -> list B) (l : list A) :
  (forall a, In a l -> f a = g a) -> List.flat_map f l = List.flat_map g l.
Proof.
  induction l as [|a l IH]; intros H; [reflexivity|].
  cbn. rewrite (H a) by (left; reflexivity).
  rewrite IH; [reflexivity|]. intros b Hb. apply H. right. exact Hb.
Qed.

Lemma ensure_calls_nodup paths v :
  List.NoDup paths ->
  ensure_calls paths v = List.flat_map (check_then_create v) paths.
Proof.
  revert v. induction paths as [|p ps IH]; intros v Hnd; [reflexivity|].
  inversion Hnd as [|? ? Hnotin Hnd']; subst.
  cbn [ensure_calls List.flat_map]. unfold check_then_create at 1.
  destruct (v !! p) eqn:E; cbn; f_equal.
  - apply IH, Hnd'.
  - f_equal. rewrite IH by exact Hnd'.
    apply flat_map_ext_on. intros q Hq. unfold check_then_create.
    rewrite lookup_insert_ne; [reflexivity|].
    intros ->. apply Hnotin, Hq.
Qed.

(** ** The prefixes of a path *)

Lemma path_prefixes_self s : In s (path_prefixes s).
Proof.
  induction s as [|c s IH]; cbn; [left; reflexivity|].
  destruct (Ascii.eqb c "/"); [right|]; apply List.in_map, IH.
Qed.

Lemma path_prefixes_spec s q :
  In q (path_prefixes s) <-> q = s \/ exists r, s = q +:+ "/" +:+ r.
Proof.
  split.
  - revert q. induction s as [|c s IH]; intros q Hq; cbn in Hq.
    + destruct Hq as [<-|[]]. left; reflexivity.
    + assert (Hmap : In q (List.map (String c) (path_prefixes s)) ->
                     q = String c s \/ exists r, String c s = q +:+ "/" +:+ r).
      { intros Hm. apply List.in_map_iff in Hm. destruct Hm as [q' [<- Hq']].
        destruct (IH q' Hq') as [->|[r ->]]; [left; reflexivity|].
        right. exists r. reflexivity. }
      destruct (Ascii.eqb c "/") eqn:E; [|exact (Hmap Hq)].
      destruct Hq as [<-|Hq]; [|exact (Hmap Hq)].
      apply Ascii.eqb_eq in E. subst c. right. exists s. reflexivity.
  - intros [->|[r ->]]; [apply path_prefixes_self|].
    induction q as [|c q IH].
    + left; reflexivity.
    + change (String c q +:+ "/" +:+ r) with (String c (q +:+ "/" +:+ r)).
      cbn [path_prefixes].
      destruct (Ascii.eqb c "/"); [right|]; apply List.in_map, IH.
Qed.

Lemma NoDup_map_String c (l : list string) :
  List.NoDup l -> List.NoDup (List.map (String c) l).
Proof.
  induction 1 as [|x l Hx Hl IH]; cbn; constructor; [|exact IH].
  intros Hin. apply List.in_map_iff in Hin. destruct Hin as [y [Heq Hy]].
  injection Heq as ->. exact (Hx Hy).
Qed.

Lemma path_prefixes_nodup s : List.NoDup (path_prefixes s).
Proof.
  induction s as [|c s IH]; cbn.
  - constructor; [intros []|constructor].
  - destruct (Ascii.eqb c "/").
    + constructor; [|apply NoDup_map_String, IH].
      intros Hin. apply List.in_map_iff in Hin. destruct Hin as [y [Heq _]].
      discriminate Heq.
    + apply NoDup_map_String, IH.
Qed.

Lemma joins_String c p ps :
  joins (String c p) ps = List.map (String c) (joins p ps).
Proof.
  revert p. induction ps as [|q qs IH]; intros p; [reflexivity|].
  cbn [joins List.map]. f_equal. exact (IH (p +:+ "/" +:+ q)).
Qed.

Lemma split_joins s :
  exists p ps, JS.split "/" s = p :: ps /\ joins p ps = path_prefixes s.
Proof.
  induction s as [|c s (p & ps & Hs & Hj)].
  - exists "", []. split; reflexivity.
  - cbn [JS.split path_prefixes]. rewrite Hs.
    destruct (Ascii.eqb c "/") eqn:E.
    + apply Ascii.eqb_eq in E. subst c.
      exists "", (p :: ps). split; [reflexivity|].
      cbn [joins]. f_equal.
      change ("" +:+ "/" +:+ p) with (String "/" p).
      rewrite joins_String, Hj. reflexivity.
    + exists (String c p), ps. split; [reflexivity|].
      rewrite joins_String, Hj. reflexivity.
Qed.

Lemma visited_truthy parts currentPath :
  JS.truthy currentPath = true ->
  joins currentPath parts = currentPath :: visited parts currentPath.
Proof.
  revert currentPath. induction parts as [|p ps IH]; intros cur Hcur; [reflexivity|].
  cbn [joins visited]. unfold next_path. rewrite Hcur. f_equal.
  apply IH. destruct cur; [discriminate Hcur|reflexivity].
Qed.

Lemma visited_relative s :
  relative_path s = true ->
  visited (JS.split "/" s) "" = path_prefixes s.
Proof.
  intros Hrel. destruct (split_joins s) as (p & ps & Hs & Hj).
  rewrite Hs, <- Hj. cbn [visited]. unfold next_path at 1 2. cbn [JS.truthy].
  symmetry. apply visited_truthy.
  destruct s as [|c s]; [discriminate Hrel|].
  cbn [JS.split relative_path] in Hs, Hrel.
  destruct (Ascii.eqb c "/"); [discriminate Hrel|].
  destruct (JS.split "/" s); injection Hs as <- _; reflexivity.
Qed.

(** On a path with a non-empty first segment, [ensureFoldersExist] walks
    the prefixes of the path, shortest first, looks each one up and creates
    exactly the missing ones; afterwards every prefix exists. *)
Lemma ensureFoldersExist_relative fullDir app v :
  relative_path fullDir = true ->
  calls_of (ensureFoldersExist fullDir) app v
    = List.flat_map (check_then_create v) (path_prefixes fullDir)
  /\ forall q, In q (path_prefixes fullDir) ->
       is_Some (vault_after (ensureFoldersExist fullDir) app v !! q).
Proof.
  intros Hrel. unfold calls_of, vault_after. rewrite ensureFoldersExist_run.
  assert (Ht : JS.truthy fullDir = true) by (destruct fullDir; [discriminate Hrel|reflexivity]).
  rewrite Ht, (visited_relative _ Hrel). cbn [fst snd]. split.
  - apply ensure_calls_nodup, path_prefixes_nodup.
  - intros q Hq. apply ensure_vault_exists, Hq.
Qed.

Lemma ensureFoldersExist_empty app v :
  ensureFoldersExist "" app v = (tt, v, []).
Proof. reflexivity. Qed.

(** ** The calls of [openOrCreateNote] *)

Lemma calls_existing config app v :
  is_Some (v !! filePath_of config) ->
  calls_of (openOrCreateNote config) app v =
  [GetAbstractFileByPath (filePath_of config); OpenLinkText (filePath_of config) "" false].
Proof.
  intros [f Hf]. unfold calls_of. rewrite (openOrCreateNote_existing _ _ _ _ Hf).
  reflexivity.
Qed.

Lemma calls_missing config app v :
  v !! filePath_of config = None ->
  calls_of (openOrCreateNote config) app v =
  [GetAbstractFileByPath (filePath_of config); PluginLookup "templater-obsidian"]
  ++ template_lookup_calls config
  ++ calls_of (ensureFoldersExist (fullDir_of config)) app v
  ++ creation_calls config app v.
Proof.
  intros Hf. unfold calls_of at 1. rewrite (openOrCreateNote_missing _ _ _ Hf).
  unfold calls_of, creation_calls, template_used, template_lookup_calls.
  destruct (ensureFoldersExist (fullDir_of config) app v) as [[[] v1] folders].
  cbv zeta. rewrite createNoteWithTemplate_run.
  destruct (result_of (getTemplateFile (templatePath config)) app v) as [t|];
    [destruct (uses_template _ _)|]; reflexivity.
Qed.

Lemma count_calls_app p cs1 cs2 :
  count_calls p (cs1 ++ cs2) = (count_calls p cs1 + count_calls p cs2)%nat.
Proof. unfold count_calls. rewrite List.filter_app, length_app. reflexivity. Qed.

Lemma count_calls_none p cs :
  Forall (fun c => p c = false) cs -> count_calls p cs = 0%nat.
Proof.
  unfold count_calls. induction 1 as [|c cs Hc _ IH]; [reflexivity|].
  cbn. rewrite Hc. exact IH.
Qed.

Lemma folder_calls_not p cs :
  (forall c, is_folder_call c = true -> p c = false) ->
  Forall (fun c => is_folder_call c = true) cs ->
  Forall (fun c => p c = false) cs.
Proof. intros Hp H. eapply Forall_impl; [exact H|]. exact Hp. Qed.

Lemma template_lookup_folder_calls config :
  Forall (fun c => is_folder_call c = true) (template_lookup_calls config).
Proof.
  unfold template_lookup_calls. destruct (JS.truthy _); repeat constructor.
Qed.

Lemma calls_missing_split config app v :
  v !! filePath_of config = None ->
  calls_of (openOrCreateNote config) app v =
  preparation_calls config app v ++ creation_calls config app v.
Proof.
  intros Hf. rewrite (calls_missing _ _ _ Hf). unfold preparation_calls.
  rewrite <- !app_assoc. reflexivity.
Qed.

Lemma preparation_calls_none p config app v :
  p (GetAbstractFileByPath (filePath_of config)) = false ->
  p (PluginLookup "templater-obsidian") = false ->
  (forall c, is_folder_call c = true -> p c = false) ->
  Forall (fun c => p c = false) (preparation_calls config app v).
Proof.
  intros H1 H2 Hp. unfold preparation_calls.
  repeat (apply Forall_app; split).
  - repeat constructor; assumption.
  - apply (folder_calls_not p _ Hp), template_lookup_folder_calls.
  - apply (folder_calls_not p _ Hp), ensureFoldersExist_folder_calls.
Qed.

Lemma folder_call_cases (p : HostCall -> bool) :
  (forall path, p (GetAbstractFileByPath path) = false) ->
  (forall path, p (CreateFolder path) = false) ->
  forall c, is_folder_call c = true -> p c = false.
Proof. intros Hg Hc [] H; try discriminate H; auto. Qed.

Lemma preparation_count p config app v :
  (forall path, p (GetAbstractFileByPath path) = false) ->
  (forall path, p (CreateFolder path) = false) ->
  p (PluginLookup "templater-obsidian") = false ->
  count_calls p (preparation_calls config app v) = 0%nat.
Proof.
  intros Hg Hc Hl. apply count_calls_none, preparation_calls_none; auto.
  apply folder_call_cases; assumption.
Qed.

Lemma creation_calls_cases config app v :
  (template_used config app v = true /\
   exists t, result_of (getTemplateFile (templatePath config)) app v = Some t /\
     creation_calls config app v =
     [CreateNewNoteFromTemplate t (fullDir_of config) (justFileName_of config) true;
      SetTimeout 300])
  \/ (template_used config app v = false /\
      creation_calls config app v =
      [VaultCreate (filePath_of config) ""; SetTimeout 300;
       OpenLinkText (filePath_of config) "" false]).
Proof.
  unfold creation_calls.
  destruct (result_of (getTemplateFile (templatePath config)) app v) as [t|] eqn:Et.
  - destruct (template_used config app v) eqn:Eu; [left|right]; eauto.
  - right. split; [|reflexivity]. unfold template_used. rewrite Et. reflexivity.
Qed.

Lemma opens_after_delay_quiet delayed before calls :
  Forall (fun c => opens_editor c = false) before ->
  Forall (fun c => is_delay c = false) before ->
  opens_after_delay delayed (before ++ calls) = opens_after_delay delayed calls.
Proof.
  intros Ho Hd. induction Ho as [|c cs Hc _ IH]; [reflexivity|].
  inversion Hd as [|? ? Hdc Hd']; subst.
  cbn. rewrite Hc, Hdc, orb_false_r. cbn. apply IH, Hd'.
Qed.

Lemma template_used_iff config app v :
  template_used config app v = true <->
  template_resolves config v /\ templater_installed app.
Proof.
  unfold template_used, template_resolves, templater_installed.
  rewrite getTemplateFile_result. unfold result_of, getTemplaterPlugin, Host.pluginLookup.
  cbn [fst]. split.
  - intros H. destruct (templatePath config) as [|c tp] eqn:Etp; [discriminate H|].
    cbn [JS.truthy] in H.
    destruct (v !! (String c tp +:+ ".md")) as [[p|p]|]; try discriminate H.
    destruct (app_plugins app) as [pm|]; [|discriminate H].
    destruct (manager_plugins pm) as [ps|] eqn:Eps; [|discriminate H].
    destruct (ps !! "templater-obsidian") as [plugin|] eqn:Epl; [|discriminate H].
    cbn in H. split; [split; [discriminate|eauto]|].
    exists pm, ps, plugin. auto.
  - intros [[Hne [p Hp]] (pm & ps & plugin & -> & -> & -> & Ht)].
    destruct (templatePath config) as [|c tp]; [congruence|].
    cbn [JS.truthy]. rewrite Hp. exact Ht.
Qed.

(** ** Properties of [openOrCreateNote] *)

(** C1: [openOrCreateNote] opens the note at the resolved path when the
    existence check [getAbstractFileByPath] finds an entry there, and
    nothing else happens; otherwise it creates the note, by exactly one
    creating call, which is the template instantiation when the template
    engine is used and [vault.create] when it is not.  A creating call is
    made if and only if the existence check finds nothing. *)
Theorem openOrCreateNote_opens_or_creates config app v :
  let filePath := filePath_of config in
  let calls := calls_of (openOrCreateNote config) app v in
  (is_Some (v !! filePath) <->
     calls = [GetAbstractFileByPath filePath; OpenLinkText filePath "" false])
  /\ (v !! filePath = None <-> count_calls is_creation calls = 1%nat)
  /\ (v !! filePath = None <->
        if template_used config app v
        then Exists (fun c => is_template_instantiation c = true) calls
        else In (VaultCreate filePath "") calls).
Proof.
  cbv zeta.
  assert (Hex : is_Some (v !! filePath_of config) ->
    calls_of (openOrCreateNote config) app v =
    [GetAbstractFileByPath (filePath_of config); OpenLinkText (filePath_of config) "" false])
    by apply calls_existing.
  assert (Hmiss : v !! filePath_of config = None ->
    count_calls is_creation (calls_of (openOrCreateNote config) app v) = 1%nat
    /\ if template_used config app v
       then Exists (fun c => is_template_instantiation c = true)
              (calls_of (openOrCreateNote config) app v)
       else In (VaultCreate (filePath_of config) "") (calls_of (openOrCreateNote config) app v)).
  { intros Hf. rewrite (calls_missing_split _ _ _ Hf), count_calls_app.
    rewrite preparation_count by reflexivity.
    destruct (creation_calls_cases config app v) as [[-> [t [_ ->]]]|[-> ->]].
    - split; [reflexivity|]. apply Exists_app. right. left. reflexivity.
    - split; [reflexivity|]. apply in_or_app. right. left. reflexivity. }
  destruct (v !! filePath_of config) as [f|] eqn:Hf.
  - specialize (Hex ltac:(eauto)). rewrite Hex.
    repeat split; intros H; try reflexivity; try discriminate H; eauto.
    destruct (template_used config app v).
    + apply List.Exists_exists in H. destruct H as [c [Hc Hi]].
      destruct Hc as [<-|[<-|[]]]; discriminate Hi.
    + destruct H as [H|[H|[]]]; discriminate H.
  - destruct (Hmiss eq_refl) as [Hcount Hcall].
    repeat split; intros H; try reflexivity; try assumption.
    + destruct H as [f H]. discriminate H.
    + rewrite (calls_missing_split _ _ _ Hf) in H. unfold preparation_calls in H.
      discriminate H.
Qed.

(** A run of C1 on a vault that already holds the note, and on one that
    does not. *)
Lemma openOrCreateNote_opens_or_creates_witness :
  calls_of (openOrCreateNote dailyNote) withTemplater vaultWithNote =
    [GetAbstractFileByPath "Daily/2024-01-01.md"; OpenLinkText "Daily/2024-01-01.md" "" false]
  /\ count_calls is_creation
       (calls_of (openOrCreateNote dailyNote) withTemplater vaultWithTemplate) = 1%nat.
Proof.
  split.
  - apply (proj1 (openOrCreateNote_opens_or_creates dailyNote withTemplater vaultWithNote)).
    vm_compute. eauto.
  - apply (proj1 (proj2 (openOrCreateNote_opens_or_creates
                           dailyNote withTemplater vaultWithTemplate))).
    vm_compute. reflexivity.
Defined.

(** C2: one call of [openOrCreateNote] makes at most one file-creating
    call: no [vault.create] and no template instantiation when the path
    already exists, and otherwise exactly one of the two, never both. *)
Theorem openOrCreateNote_at_most_one_creation config app v :
  let calls := calls_of (openOrCreateNote config) app v in
  (count_calls is_vault_create calls + count_calls is_template_instantiation calls <= 1)%nat
  /\ (count_calls is_vault_create calls + count_calls is_template_instantiation calls)%nat
     = match v !! filePath_of config with
       | Some _ => 0%nat
       | None => 1%nat
       end.
Proof.
  cbv zeta.
  assert (H : (count_calls is_vault_create (calls_of (openOrCreateNote config) app v)
               + count_calls is_template_instantiation (calls_of (openOrCreateNote config) app v))%nat
              = match v !! filePath_of config with Some _ => 0%nat | None => 1%nat end).
  { destruct (v !! filePath_of config) as [f|] eqn:Hf.
    - rewrite calls_existing by (rewrite Hf; eauto). reflexivity.
    - rewrite (calls_missing_split _ _ _ Hf), !count_calls_app.
      rewrite !preparation_count by reflexivity.
      destruct (creation_calls_cases config app v) as [[_ [t [_ ->]]]|[_ ->]]; reflexivity. }
  split; [|exact H]. rewrite H. destruct (v !! filePath_of config); lia.
Qed.



(** C4 as stated fails in the template branch: the note is opened by the
    template instantiation, and the delay comes after it. *)
Lemma delay_before_open_counterexample :
  vaultWithTemplate !! filePath_of dailyNote = None
  /\ calls_of (openOrCreateNote dailyNote) withTemplater vaultWithTemplate =
     [GetAbstractFileByPath "Daily/2024-01-01.md";
      PluginLookup "templater-obsidian";
      GetAbstractFileByPath "Templates/Daily.md";
      GetAbstractFileByPath "Daily"; CreateFolder "Daily";
      CreateNewNoteFromTemplate (TFile "Templates/Daily.md") "Daily" "2024-01-01" true;
      SetTimeout 300]
  /\ opens_after_delay false
       (calls_of (openOrCreateNote dailyNote) withTemplater vaultWithTemplate) = false.
Proof. vm_compute. repeat split; reflexivity. Qed.

(** C4, amended: when [openOrCreateNote] creates a file, the creating call
    is immediately followed by a delay of 300 ms, and no delay and no
    opening of the editor comes before the creating call.  In the
    empty-file branch [openLinkText] follows the delay and ends the run.
    In the template branch the instantiation is called with
    [open_new_note = true], so the note is opened before the delay, and the
    delay ends the run. *)
Theorem creation_then_delay config app v :
  v !! filePath_of config = None ->
  exists before created,
    calls_of (openOrCreateNote config) app v = before ++ created
    /\ Forall (fun c => opens_editor c = false) before
    /\ Forall (fun c => is_delay c = false) before
    /\ (if template_used config app v
        then exists t,
               created = [CreateNewNoteFromTemplate t (fullDir_of config)
                            (justFileName_of config) true;
                          SetTimeout 300]
        else created = [VaultCreate (filePath_of config) ""; SetTimeout 300;
                        OpenLinkText (filePath_of config) "" false])
    /\ opens_after_delay false (calls_of (openOrCreateNote config) app v)
       = negb (template_used config app v).
Proof.
  intros Hf.
  exists (preparation_calls config app v), (creation_calls config app v).
  assert (Ho : Forall (fun c => opens_editor c = false) (preparation_calls config app v)).
  { apply preparation_calls_none; try reflexivity.
    apply folder_call_cases; reflexivity. }
  assert (Hd : Forall (fun c => is_delay c = false) (preparation_calls config app v)).
  { apply preparation_calls_none; try reflexivity.
    apply folder_call_cases; reflexivity. }
  split; [exact (calls_missing_split _ _ _ Hf)|].
  split; [exact Ho|]. split; [exact Hd|].
  rewrite (calls_missing_split _ _ _ Hf), (opens_after_delay_quiet _ _ _ Ho Hd).
  destruct (creation_calls_cases config app v) as [[-> [t [_ ->]]]|[-> ->]].
  - split; [exists t; reflexivity|reflexivity].
  - split; reflexivity.
Qed.

Lemma creation_then_delay_witness :
  exists before created,
    calls_of (openOrCreateNote dailyNote) noPlugins ∅ = before ++ created
    /\ opens_after_delay false (calls_of (openOrCreateNote dailyNote) noPlugins ∅) = true.
Proof.
  destruct (creation_then_delay dailyNote noPlugins ∅)
    as (before & created & H & _ & _ & _ & Hopen).
  - vm_compute. reflexivity.
  - exists before, created. split; [exact H|exact Hopen].
Defined.

(** C5: when the note is created, the template engine is instantiated if
    and only if a template file resolves from [templatePath] and the
    Templater plugin with a [templater] object is installed; in every other
    case [vault.create] makes an empty file at the resolved path and no
    template is instantiated. *)
Theorem template_instantiated_iff config app v :
  v !! filePath_of config = None ->
  let calls := calls_of (openOrCreateNote config) app v in
  (Exists (fun c => is_template_instantiation c = true) calls <->
     template_resolves config v /\ templater_installed app)
  /\ (~ (template_resolves config v /\ templater_installed app) ->
      In (VaultCreate (filePath_of config) "") calls
      /\ count_calls is_template_instantiation calls = 0%nat).
Proof.
  intros Hf. cbv zeta. rewrite <- template_used_iff.
  rewrite (calls_missing_split _ _ _ Hf).
  assert (Hprep : Forall (fun c => is_template_instantiation c = false)
                    (preparation_calls config app v)).
  { apply preparation_calls_none; try reflexivity.
    apply folder_call_cases; reflexivity. }
  destruct (creation_calls_cases config app v) as [[Hu [t [_ Hc]]]|[Hu Hc]];
    rewrite Hu, Hc.
  - split; [|intros H; exfalso; apply H; reflexivity].
    split; [reflexivity|]. intros _. apply Exists_app. right. left. reflexivity.
  - split.
    + split; [|discriminate]. intros H. apply Exists_app in H.
      destruct H as [H|H].
      * apply List.Exists_exists in H. destruct H as [c [Hin Hc']].
        rewrite List.Forall_forall in Hprep. rewrite (Hprep c Hin) in Hc'. discriminate Hc'.
      * apply List.Exists_exists in H. destruct H as [c [Hin Hc']].
        destruct Hin as [<-|[<-|[<-|[]]]]; discriminate Hc'.
    + intros _. split; [apply in_or_app; right; left; reflexivity|].
      rewrite count_calls_app, (count_calls_none _ _ Hprep). reflexivity.
Qed.

Lemma template_instantiated_iff_witness :
  Exists (fun c => is_template_instantiation c = true)
    (calls_of (openOrCreateNote dailyNote) withTemplater vaultWithTemplate).
Proof.
  apply (proj1 (template_instantiated_iff dailyNote withTemplater vaultWithTemplate
                  ltac:(vm_compute; reflexivity))).
  split.
  - split; [discriminate|]. exists "Templates/Daily.md". vm_compute. reflexivity.
  - eexists _, _, _. repeat split; vm_compute; reflexivity.
Defined.

(** C6: the path [openOrCreateNote] works on is [folder/fileName.md] when
    [folder] is not empty and [fileName.md] when it is; the existence check,
    every [openLinkText] and every [vault.create] of the run use it. *)
Theorem openOrCreateNote_resolved_path config app v :
  let calls := calls_of (openOrCreateNote config) app v in
  (folder config <> "" ->
     filePath_of config = folder config +:+ "/" +:+ fileName config +:+ ".md")
  /\ (folder config = "" -> filePath_of config = fileName config +:+ ".md")
  /\ head calls = Some (GetAbstractFileByPath (filePath_of config))
  /\ (forall p s n, In (OpenLinkText p s n) calls -> p = filePath_of config)
  /\ (forall p d, In (VaultCreate p d) calls -> p = filePath_of config).
Proof.
  cbv zeta. split; [|split].
  - unfold filePath_of. destruct (folder config); [congruence|reflexivity].
  - unfold filePath_of. intros ->. reflexivity.
  - destruct (v !! filePath_of config) as [f|] eqn:Hf.
    + rewrite calls_existing by (rewrite Hf; eauto).
      split; [reflexivity|]. split.
      * intros p s n [H|[H|[]]]; [discriminate H|]. injection H as <- _ _. reflexivity.
      * intros p d [H|[H|[]]]; discriminate H.
    + rewrite (calls_missing_split _ _ _ Hf).
      split; [reflexivity|].
      assert (Hprep : Forall (fun c => is_folder_call c = true \/
                 c = PluginLookup "templater-obsidian")
                (preparation_calls config app v)).
      { unfold preparation_calls. repeat (apply Forall_app; split).
        - constructor; [left; reflexivity|].
          constructor; [right; reflexivity|constructor].
        - eapply Forall_impl; [apply template_lookup_folder_calls|]. cbn. auto.
        - eapply Forall_impl; [apply ensureFoldersExist_folder_calls|]. cbn. auto. }
      rewrite List.Forall_forall in Hprep.
      split.
      * intros p s n Hin. apply in_app_or in Hin. destruct Hin as [Hin|Hin].
        { destruct (Hprep _ Hin) as [H|H]; discriminate H. }
        destruct (creation_calls_cases config app v) as [[_ [t [_ Hc]]]|[_ Hc]];
          rewrite Hc in Hin.
        { destruct Hin as [H|[H|[]]]; discriminate H. }
        destruct Hin as [H|[H|[H|[]]]]; try discriminate H.
        injection H as <- _ _. reflexivity.
      * intros p d Hin. apply in_app_or in Hin. destruct Hin as [Hin|Hin].
        { destruct (Hprep _ Hin) as [H|H]; discriminate H. }
        destruct (creation_calls_cases config app v) as [[_ [t [_ Hc]]]|[_ Hc]];
          rewrite Hc in Hin.
        { destruct Hin as [H|[H|[]]]; discriminate H. }
        destruct Hin as [H|[H|[H|[]]]]; try discriminate H.
        injection H as <- _. reflexivity.
Qed.

Lemma openOrCreateNote_resolved_path_witness :
  filePath_of dailyNote = "Daily/2024-01-01.md"
  /\ filePath_of {| fileName := "2024-W01"; folder := ""; templatePath := "" |} = "2024-W01.md".
Proof.
  split.
  - apply (proj1 (openOrCreateNote_resolved_path dailyNote noPlugins ∅)). discriminate.
  - apply (proj1 (proj2 (openOrCreateNote_resolved_path
      {| fileName := "2024-W01"; folder := ""; templatePath := "" |} noPlugins ∅))).
    reflexivity.
Defined.

(** C8: when an entry already exists at the resolved path,
    [openOrCreateNote] leaves the vault as it is: it makes the existence
    check, opens the existing note, and makes no [createFolder], no
    [vault.create] and no template instantiation. *)
Theorem openOrCreateNote_existing_unchanged config app v :
  is_Some (v !! filePath_of config) ->
  vault_after (openOrCreateNote config) app v = v
  /\ calls_of (openOrCreateNote config) app v =
     [GetAbstractFileByPath (filePath_of config);
      OpenLinkText (filePath_of config) "" false]
  /\ count_calls is_create_folder (calls_of (openOrCreateNote config) app v) = 0%nat
  /\ count_calls is_vault_create (calls_of (openOrCreateNote config) app v) = 0%nat
  /\ count_calls is_template_instantiation (calls_of (openOrCreateNote config) app v) = 0%nat.
Proof.
  intros [f Hf]. unfold vault_after, calls_of.
  rewrite (openOrCreateNote_existing _ _ _ _ Hf). cbn [fst snd].
  repeat split; reflexivity.
Qed.

Lemma openOrCreateNote_existing_unchanged_witness :
  vault_after (openOrCreateNote dailyNote) withTemplater vaultWithNote = vaultWithNote.
Proof.
  apply (proj1 (openOrCreateNote_existing_unchanged dailyNote withTemplater vaultWithNote
                  ltac:(vm_compute; eauto))).
Defined.

(** C9, at a path that starts with a slash: [split] yields an empty first
    part, so [currentPath] is still falsy at the second iteration and the
    slash is dropped.  The paths visited are [""] and ["a"], not the
    prefixes [""] and ["/a"], and ["/a"] does not exist afterwards. *)
Theorem ensureFoldersExist_leading_slash :
  path_prefixes "/a" = [""; "/a"]
  /\ calls_of (ensureFoldersExist "/a") noPlugins ∅ =
     [GetAbstractFileByPath ""; CreateFolder "";
      GetAbstractFileByPath "a"; CreateFolder "a"]
  /\ vault_after (ensureFoldersExist "/a") noPlugins ∅ !! "/a" = None.
Proof. vm_compute. repeat split; reflexivity. Qed.

(** ** Properties of the click handlers *)

(** The small calendar obeys the laws asked of dayjs. *)
Lemma simpleDayjs_laws : DayjsLaws simpleDayjs.
Proof.
  split; cbn.
  - intros fmt. unfold simple_dayjs.
    repeat (destruct fmt as [|[[] [] [] [] [] [] [] []] fmt]; try reflexivity).
  - intros d m Hm. apply Z.mod_small. lia.
  - intros d m Hm. rewrite Z.div_small by lia. lia.
  - reflexivity.
  - reflexivity.
  - reflexivity.
Qed.

Section HandlerProperties.

Context {D : DayjsLib}.
Variable settings : Settings.
Variable document : Document.

Lemma parseDate_none text formats :
  List.existsb (fun fmt => isValid (dayjs text fmt)) formats = false ->
  parseDate text formats = None.
Proof.
  induction formats as [|fmt formats IH]; cbn; [reflexivity|].
  destruct (isValid (dayjs text fmt)); [discriminate|exact IH].
Qed.

Lemma parseDate_some text formats :
  List.existsb (fun fmt => isValid (dayjs text fmt)) formats = true ->
  exists d, parseDate text formats = Some d /\ isValid d = true.
Proof.
  induction formats as [|fmt formats IH]; cbn; [discriminate|].
  destruct (isValid (dayjs text fmt)) eqn:E; [eauto|exact IH].
Qed.

Lemma handleMonthLabelClick_unusable delegateTarget :
  usable (textContent delegateTarget) ["D MMM YYYY"; "DD MMM YYYY"; "MMM YYYY"] = false ->
  handleMonthLabelClick settings delegateTarget = ret tt.
Proof.
  unfold usable, handleMonthLabelClick.
  destruct (JS.nonempty (textContent delegateTarget)) as [s|]; [|reflexivity].
  intros H. rewrite (parseDate_none _ _ H). reflexivity.
Qed.

Lemma handleMonthClick_unusable labelButton :
  usable (monthYear_text labelButton) ["MMM YYYY"; "MMMM YYYY"] = false ->
  handleMonthClick settings labelButton = ret tt.
Proof.
  unfold usable, handleMonthClick.
  destruct (JS.nonempty (monthYear_text labelButton)) as [s|]; [|reflexivity].
  intros H. rewrite (parseDate_none _ _ H). reflexivity.
Qed.

Lemma handleQuarterClick_unusable labelButton :
  usable (monthYear_text labelButton) ["MMM YYYY"; "MMMM YYYY"] = false ->
  handleQuarterClick settings labelButton = ret tt.
Proof.
  unfold usable, handleQuarterClick.
  destruct (JS.nonempty (monthYear_text labelButton)) as [s|]; [|reflexivity].
  intros H. rewrite (parseDate_none _ _ H). reflexivity.
Qed.

Lemma handleWeekNumberClick_unusable delegateTarget :
  DayjsLaws D ->
  usable (weekDateText document delegateTarget) ["MMMM D, YYYY"] = false ->
  handleWeekNumberClick settings document delegateTarget = ret tt.
Proof.
  intros L. unfold usable, weekDateText, handleWeekNumberClick. cbv zeta.
  destruct (findWeekIndex _ _ _ _ =? -1)%Z; [reflexivity|].
  destruct (dayTiles document !! _) as [tile|]; [|reflexivity].
  destruct (abbr tile) as [abbrEl|]; [|reflexivity].
  destruct (aria_label abbrEl) as [[|c s]|]; cbn.
  - rewrite dayjs_empty_invalid. reflexivity.
  - rewrite orb_false_r. intros ->. reflexivity.
  - rewrite dayjs_empty_invalid. reflexivity.
Qed.

Lemma internalPluginLookup_run id app v :
  Host.internalPluginLookup id app v =
  (result_of (Host.internalPluginLookup id) app v, v, [InternalPluginLookup id]).
Proof. reflexivity. Qed.

Lemma handleMonthDayContextMenu_run delegateTarget app v :
  vault_after (handleMonthDayContextMenu delegateTarget) app v = v
  /\ (calls_of (handleMonthDayContextMenu delegateTarget) app v = []
      \/ calls_of (handleMonthDayContextMenu delegateTarget) app v =
         [InternalPluginLookup "daily-notes"; PluginLookup "templater-obsidian"]).
Proof.
  unfold vault_after, calls_of, handleMonthDayContextMenu.
  destruct (abbr delegateTarget) as [abbrItem|]; [|split; [|left]; reflexivity].
  destruct (JS.nonempty (aria_label abbrItem)) as [destDate|]; [|split; [|left]; reflexivity].
  rewrite bind_run, internalPluginLookup_run. cbv beta iota zeta.
  rewrite bind_run, getTemplaterPlugin_run. cbv beta iota zeta.
  destruct (result_of (Host.internalPluginLookup "daily-notes") app v) as [daily|];
    destruct (result_of getTemplaterPlugin app v) as [[[|]]|];
    try destruct (enabled daily); split; try right; reflexivity.
Qed.

Lemma openOrCreateNote_calls config app v :
  calls_of (openOrCreateNote config) app v <> [].
Proof.
  destruct (v !! filePath_of config) as [f|] eqn:Hf.
  - rewrite calls_existing by (rewrite Hf; eauto). discriminate.
  - rewrite (calls_missing _ _ _ Hf). discriminate.
Qed.

(** X18: in the week, month-label, month, quarter and navigation
    handlers, when the date string recovered from the markup is absent,
    empty, or invalid under each format tried, the handler returns at once:
    it makes no host call and leaves the vault as it is, whereas
    [openOrCreateNote] always makes a call.  The context-menu handler never
    calls [openOrCreateNote] itself: its only calls are the two plugin
    lookups, and it shows no menu when the string is absent or empty. *)
Theorem handlers_return_early (L : DayjsLaws D) app v :
  (forall t, usable (weekDateText document t) ["MMMM D, YYYY"] = false ->
     handleWeekNumberClick settings document t app v = (tt, v, []))
  /\ (forall t, usable (textContent t) ["D MMM YYYY"; "DD MMM YYYY"; "MMM YYYY"] = false ->
        handleMonthLabelClick settings t app v = (tt, v, []))
  /\ (forall b, usable (monthYear_text b) ["MMM YYYY"; "MMMM YYYY"] = false ->
        handleMonthClick settings b app v = (tt, v, [])
        /\ handleQuarterClick settings b app v = (tt, v, []))
  /\ (forall target,
        (forall b, closest_label target = Some b ->
           usable (monthYear_text b) ["MMM YYYY"; "MMMM YYYY"] = false) ->
        handleMonthNavLabelClickCapture settings target app v = (tt, v, []))
  /\ (forall t,
        vault_after (handleMonthDayContextMenu t) app v = v
        /\ (calls_of (handleMonthDayContextMenu t) app v = []
            \/ calls_of (handleMonthDayContextMenu t) app v =
               [InternalPluginLookup "daily-notes"; PluginLookup "templater-obsidian"])
        /\ (JS.nonempty (dayText t) = None ->
            handleMonthDayContextMenu t app v = (None, v, [])))
  /\ (forall config, calls_of (openOrCreateNote config) app v <> []).
Proof.
  split; [|split; [|split; [|split; [|split]]]].
  - intros t H. rewrite (handleWeekNumberClick_unusable t L H). reflexivity.
  - intros t H. rewrite (handleMonthLabelClick_unusable t H). reflexivity.
  - intros b H. rewrite (handleMonthClick_unusable b H), (handleQuarterClick_unusable b H).
    split; reflexivity.
  - intros target H. unfold handleMonthNavLabelClickCapture.
    destruct (closest_label target) as [b|]; [|reflexivity].
    specialize (H b eq_refl).
    rewrite (handleMonthClick_unusable b H), (handleQuarterClick_unusable b H).
    destruct (closest_quarter target), (closest_month_year target); reflexivity.
  - intros t. destruct (handleMonthDayContextMenu_run t app v) as [Hv Hc].
    split; [exact Hv|]. split; [exact Hc|].
    unfold dayText, handleMonthDayContextMenu.
    destruct (abbr t) as [abbrItem|]; [|reflexivity].
    intros ->. reflexivity.
  - intros config. apply openOrCreateNote_calls.
Qed.

(** With a usable date string the month and quarter handlers go on to
    [openOrCreateNote], with the note of the month's or quarter's first
    day. *)
Lemma handleQuarterClick_usable labelButton labelText monthDate :
  JS.nonempty (monthYear_text labelButton) = Some labelText ->
  parseDate labelText ["MMM YYYY"; "MMMM YYYY"] = Some monthDate ->
  handleQuarterClick settings labelButton =
  openOrCreateNote
    {| fileName := format (quarterDate monthDate) (quarterlyNoteFormat settings);
       folder := quarterlyNoteFolder settings;
       templatePath := quarterlyNoteTemplate settings |}.
Proof. intros Ht Hp. unfold handleQuarterClick. rewrite Ht, Hp. reflexivity. Qed.

Lemma quarterStartMonth_cases m :
  0 <= m <= 11 ->
  quarterStartMonth m = 3 * (m / 3).
Proof.
  intros Hm.
  assert (H : m = 0 \/ m = 1 \/ m = 2 \/ m = 3 \/ m = 4 \/ m = 5 \/ m = 6
              \/ m = 7 \/ m = 8 \/ m = 9 \/ m = 10 \/ m = 11) by lia.
  repeat (destruct H as [->|H]; [reflexivity|]). subst m. reflexivity.
Qed.

(** C10: for a parsed month with zero-based index [m] in [0..11],
    [handleQuarterClick] takes [3 * floor(m / 3)] as the quarter's first
    month, which is 0, 3, 6 or 9, and names the note after the first day of
    that month (January, April, July or October) of the same year. *)
Theorem quarter_note_date (L : DayjsLaws D) labelButton labelText monthDate :
  JS.nonempty (monthYear_text labelButton) = Some labelText ->
  parseDate labelText ["MMM YYYY"; "MMMM YYYY"] = Some monthDate ->
  0 <= month monthDate <= 11 ->
  quarterStartMonth (month monthDate) = 3 * (month monthDate / 3)
  /\ In (quarterStartMonth (month monthDate)) [0; 3; 6; 9]
  /\ month (quarterDate monthDate) = 3 * (month monthDate / 3)
  /\ date (quarterDate monthDate) = 1
  /\ year (quarterDate monthDate) = year monthDate
  /\ handleQuarterClick settings labelButton =
     openOrCreateNote
       {| fileName := format (quarterDate monthDate) (quarterlyNoteFormat settings);
          folder := quarterlyNoteFolder settings;
          templatePath := quarterlyNoteTemplate settings |}.
Proof.
  intros Ht Hp Hm.
  pose proof (quarterStartMonth_cases _ Hm) as Hq.
  assert (Hd : 0 <= month monthDate / 3 < 4)
    by (split; [apply Z.div_pos; lia | apply Z.div_lt_upper_bound; lia]).
  assert (Hr : 0 <= quarterStartMonth (month monthDate) <= 11).
  { rewrite Hq. lia. }
  split; [exact Hq|]. split.
  - rewrite Hq.
    assert (H : month monthDate / 3 = 0 \/ month monthDate / 3 = 1
                \/ month monthDate / 3 = 2 \/ month monthDate / 3 = 3).
    { lia. }
    destruct H as [-> | [-> | [-> | ->]]]; cbn; auto.
  - pose proof (handleQuarterClick_usable _ _ _ Ht Hp) as Hcall.
    unfold quarterDate in *.
    rewrite month_startOf_month, date_startOf_month, year_startOf_month.
    rewrite (month_set_month _ _ Hr), (year_set_month _ _ Hr).
    repeat split; try reflexivity; [exact Hq|exact Hcall].
Qed.

End HandlerProperties.

(** The context-menu path does not test [isValid]: once the menu is shown
    with Daily Notes enabled and Templater present, its second item runs
    [createDailyNote] on whatever [dayjs] made of the label. *)
Lemma context_menu_daily_note_item `{D : DayjsLib} app v abbrItem destDate daily ps pm ips ipm t :
  abbr t = Some abbrItem ->
  JS.nonempty (aria_label abbrItem) = Some destDate ->
  app_internalPlugins app = Some ipm ->
  manager_internalPlugins ipm = Some ips ->
  ips !! "daily-notes" = Some daily ->
  enabled daily = true ->
  app_plugins app = Some pm ->
  manager_plugins pm = Some ps ->
  ps !! "templater-obsidian" = Some {| templater := true |} ->
  exists createNote,
    result_of (handleMonthDayContextMenu t) app v =
    Some [createNote;
          {| title := "Create daily note for this date"; icon := "calendar-plus";
             onClick := RunAsync (createDailyNote daily (dayjs destDate "MMMM D, YYYY")) |}].
Proof.
  intros Ha Hd Hipm Hips Hdaily Hen Hpm Hps Ht.
  unfold result_of, handleMonthDayContextMenu. rewrite Ha, Hd.
  assert (Hr1 : result_of (Host.internalPluginLookup "daily-notes") app v = Some daily).
  { unfold result_of, Host.internalPluginLookup. cbn [fst]. rewrite Hipm, Hips. exact Hdaily. }
  assert (Hr2 : result_of getTemplaterPlugin app v = Some {| templater := true |}).
  { unfold result_of, getTemplaterPlugin, Host.pluginLookup. cbn [fst]. rewrite Hpm, Hps. exact Ht. }
  rewrite bind_run, internalPluginLookup_run. cbv beta iota zeta.
  rewrite bind_run, getTemplaterPlugin_run. cbv beta iota zeta.
  rewrite Hr1, Hr2, Hen. cbn. eauto.
Qed.

Lemma handlers_return_early_witness :
  handleMonthClick someSettings (labelOf (Some "someday")) noPlugins ∅ = (tt, ∅, [])
  /\ handleQuarterClick someSettings (labelOf None) noPlugins ∅ = (tt, ∅, []).
Proof.
  pose proof (handlers_return_early someSettings emptyDocument simpleDayjs_laws noPlugins ∅)
    as (_ & _ & H & _).
  split.
  - apply (H (labelOf (Some "someday"))). vm_compute. reflexivity.
  - apply (H (labelOf None)). vm_compute. reflexivity.
Defined.

Lemma quarter_note_date_witness :
  quarterStartMonth 4 = 3
  /\ sd_month (quarterDate (simple_dayjs "May 2024" "MMM YYYY")) = 3
  /\ sd_date (quarterDate (simple_dayjs "May 2024" "MMM YYYY")) = 1
  /\ sd_year (quarterDate (simple_dayjs "May 2024" "MMM YYYY")) = 2024.
Proof.
  pose proof (quarter_note_date someSettings simpleDayjs_laws
                (labelOf (Some "May 2024")) "May 2024"
                (simple_dayjs "May 2024" "MMM YYYY")) as H.
  destruct H as (H1 & _ & H3 & H4 & H5 & _).
  - reflexivity.
  - vm_compute. reflexivity.
  - vm_compute. split; discriminate.
  - split; [exact H1|]. split; [exact H3|]. split; [exact H4|exact H5].
Defined.

(** A label that is not a date still reaches [openOrCreateNote] through
    the daily-note menu item. *)
Example context_menu_invalid_label :
  sd_valid (simple_dayjs "1 janvier 2024" "MMMM D, YYYY") = false
  /\ calls_of (createDailyNote
                 {| enabled := true;
                    instance := Some {| options := Some {| options_format := None;
                                                          options_folder := None;
                                                          options_template := None |} |} |}
                 (simple_dayjs "1 janvier 2024" "MMMM D, YYYY")) noPlugins ∅
     = [ GetAbstractFileByPath "Invalid Date.md";
         PluginLookup "templater-obsidian";
         VaultCreate "Invalid Date.md" ""; SetTimeout 300;
         OpenLinkText "Invalid Date.md" "" false ].
Proof. vm_compute. split; reflexivity. Qed.

(** ** The context-menu path on a label that is not a date *)

Lemma creation_count config app (v : gmap string TAbstractFile) :
  (count_calls is_creation (calls_of (openOrCreateNote config) app v) <= 1)%nat
  /\ count_calls opens_editor (calls_of (openOrCreateNote config) app v) = 1%nat.
Proof.
  destruct (v !! filePath_of config) as [f|] eqn:Hf.
  - rewrite calls_existing by (rewrite Hf; eauto). cbn. lia.
  - rewrite (calls_missing_split _ _ _ Hf), !count_calls_app.
    rewrite !preparation_count by reflexivity.
    destruct (creation_calls_cases config app v) as [[_ [t [_ ->]]]|[_ ->]]; cbn; lia.
Qed.

Lemma creation_exactly_one config app (v : gmap string TAbstractFile) :
  v !! filePath_of config = None ->
  count_calls is_creation (calls_of (openOrCreateNote config) app v) = 1%nat.
Proof.
  intros Hf. rewrite (calls_missing_split _ _ _ Hf), count_calls_app.
  rewrite preparation_count by reflexivity.
  destruct (creation_calls_cases config app v) as [[_ [t [_ ->]]]|[_ ->]]; reflexivity.
Qed.

(** C7, where the code departs from it: [handleMonthDayContextMenu] parses
    the label and never asks whether the date is valid.  For a label that
    is not empty and is not a date, with Daily Notes enabled and Templater
    installed, it shows the menu with the daily-note item; the callback of
    that item is [openOrCreateNote] on the name the invalid date formats
    to, so on any vault it opens a note in the editor, and creates it when
    it is not there. *)
Theorem context_menu_unparsable_label {D : DayjsLib} app (v : gmap string TAbstractFile)
    t abbrItem destDate ipm ips daily dailyOptions pm ps :
  abbr t = Some abbrItem ->
  JS.nonempty (aria_label abbrItem) = Some destDate ->
  isValid (dayjs destDate "MMMM D, YYYY") = false ->
  app_internalPlugins app = Some ipm ->
  manager_internalPlugins ipm = Some ips ->
  ips !! "daily-notes" = Some daily ->
  enabled daily = true ->
  instance daily = Some {| options := Some dailyOptions |} ->
  app_plugins app = Some pm ->
  manager_plugins pm = Some ps ->
  ps !! "templater-obsidian" = Some {| templater := true |} ->
  let dayjsDate := dayjs destDate "MMMM D, YYYY" in
  let config :=
    {| fileName := format dayjsDate (JS.or_else (options_format dailyOptions) "YYYY-MM-DD");
       folder := JS.or_else (options_folder dailyOptions) "";
       templatePath := JS.or_else (options_template dailyOptions) "" |} in
  (exists createNote,
     result_of (handleMonthDayContextMenu t) app v =
     Some [createNote;
           {| title := "Create daily note for this date"; icon := "calendar-plus";
              onClick := RunAsync (createDailyNote daily dayjsDate) |}])
  /\ createDailyNote daily dayjsDate = openOrCreateNote config
  /\ forall v' : gmap string TAbstractFile,
       count_calls opens_editor (calls_of (createDailyNote daily dayjsDate) app v') = 1%nat
       /\ (v' !! filePath_of config = None ->
           count_calls is_creation (calls_of (createDailyNote daily dayjsDate) app v') = 1%nat).
Proof.
  intros Ha Hd Hinvalid Hipm Hips Hdaily Hen Hinst Hpm Hps Ht. cbv zeta.
  assert (Hcall : createDailyNote daily (dayjs destDate "MMMM D, YYYY") =
    openOrCreateNote
      {| fileName := format (dayjs destDate "MMMM D, YYYY")
                       (JS.or_else (options_format dailyOptions) "YYYY-MM-DD");
         folder := JS.or_else (options_folder dailyOptions) "";
         templatePath := JS.or_else (options_template dailyOptions) "" |}).
  { unfold createDailyNote. rewrite Hinst. reflexivity. }
  split; [|split; [exact Hcall|]].
  - exact (context_menu_daily_note_item app v abbrItem destDate daily ps pm ips ipm t
             Ha Hd Hipm Hips Hdaily Hen Hpm Hps Ht).
  - intros v'. rewrite Hcall. split.
    + exact (proj2 (creation_count _ app v')).
    + apply creation_exactly_one.
Qed.

(** On the label ["1 janvier 2024"] the small calendar, like dayjs, finds
    no date; the daily-note item is offered all the same and its callback
    creates a note. *)
Lemma context_menu_unparsable_label_witness :
  sd_valid (simple_dayjs "1 janvier 2024" "MMMM D, YYYY") = false
  /\ (exists createNote,
        result_of (handleMonthDayContextMenu (dayTile 1 (Some "1 janvier 2024")))
          withDailyNotes ∅ =
        Some [createNote;
              {| title := "Create daily note for this date"; icon := "calendar-plus";
                 onClick := RunAsync (createDailyNote enabledDailyNotes
                                        (simple_dayjs "1 janvier 2024" "MMMM D, YYYY")) |}])
  /\ count_calls is_creation
       (calls_of (createDailyNote enabledDailyNotes
                    (simple_dayjs "1 janvier 2024" "MMMM D, YYYY")) withDailyNotes ∅)
     = 1%nat.
Proof.
  destruct (context_menu_unparsable_label (D := simpleDayjs) withDailyNotes ∅
              (dayTile 1 (Some "1 janvier 2024"))
              {| aria_label := Some "1 janvier 2024" |} "1 janvier 2024"
              {| manager_internalPlugins := Some dailyNotesRegistry |} dailyNotesRegistry
              enabledDailyNotes dailyNotesOptions
              {| manager_plugins := Some templaterRegistry |} templaterRegistry)
    as (Hmenu & _ & Hrun).
  all: try (vm_compute; reflexivity).
  split; [reflexivity|]. split; [exact Hmenu|].
  apply (Hrun ∅). apply lookup_empty.
Defined.

(** * Part IV: further properties of the code *)

(** ** Strings: the last slash of a path *)

Lemma append_cons a s1 s2 : String a s1 +:+ s2 = String a (s1 +:+ s2).
Proof. reflexivity. Qed.

Lemma append_nil s : "" +:+ s = s.
Proof. reflexivity. Qed.

Lemma occurs_app c s1 s2 :
  occurs c (s1 +:+ s2) = occurs c s1 || occurs c s2.
Proof.
  induction s1 as [|a s1 IH]; [reflexivity|].
  rewrite append_cons. simpl. rewrite IH, orb_assoc. reflexivity.
Qed.

Lemma occurs_after c pre post : occurs c (pre +:+ String c post) = true.
Proof.
  rewrite occurs_app. simpl. rewrite Ascii.eqb_refl, orb_true_r. reflexivity.
Qed.

Lemma lastIndexOf_from_absent c s i acc :
  occurs c s = false -> JS.lastIndexOf_from c s i acc = acc.
Proof.
  revert i acc. induction s as [|a s IH]; intros i acc H; [reflexivity|].
  simpl in H. apply orb_false_iff in H. destruct H as [Ha Hs].
  simpl. rewrite Ha. apply IH, Hs.
Qed.

Lemma lastIndexOf_from_last c pre post i acc :
  occurs c post = false ->
  JS.lastIndexOf_from c (pre +:+ String c post) i acc = i + Z.of_nat (String.length pre).
Proof.
  revert i acc. induction pre as [|a pre IH]; intros i acc H.
  - rewrite append_nil. simpl. rewrite Ascii.eqb_refl, (lastIndexOf_from_absent _ _ _ _ H). lia.
  - rewrite append_cons. simpl. rewrite (IH _ _ H). lia.
Qed.

Lemma lastIndexOf_last c pre post :
  occurs c post = false ->
  JS.lastIndexOf c (pre +:+ String c post) = Z.of_nat (String.length pre).
Proof. intros H. unfold JS.lastIndexOf. rewrite (lastIndexOf_from_last _ _ _ _ _ H). lia. Qed.

Lemma lastIndexOf_absent_char c s :
  occurs c s = false -> JS.lastIndexOf c s = -1.
Proof. apply lastIndexOf_from_absent. Qed.

(** A string in which [c] occurs splits at the last [c]. *)
Lemma occurs_split c s :
  occurs c s = true ->
  exists pre post, s = pre +:+ String c post /\ occurs c post = false.
Proof.
  induction s as [|a s IH]; [discriminate|].
  simpl. destruct (occurs c s) eqn:Es.
  - intros _. destruct (IH eq_refl) as (pre & post & -> & Hpost).
    exists (String a pre), post. split; [reflexivity|exact Hpost].
  - rewrite orb_false_r. intros Ha. apply Ascii.eqb_eq in Ha. subst a.
    exists "", s. split; [reflexivity|exact Es].
Qed.

Lemma append_assoc s1 s2 s3 : (s1 +:+ s2) +:+ s3 = s1 +:+ (s2 +:+ s3).
Proof. induction s1 as [|a s1 IH]; [reflexivity|]. rewrite !append_cons, IH. reflexivity. Qed.

Lemma length_append s1 s2 :
  String.length (s1 +:+ s2) = (String.length s1 + String.length s2)%nat.
Proof.
  induction s1 as [|a s1 IH]; [reflexivity|].
  rewrite append_cons. simpl. rewrite IH. reflexivity.
Qed.

Lemma String_substring_prefix pre rest :
  String.substring 0 (String.length pre) (pre +:+ rest) = pre.
Proof.
  induction pre as [|a pre IH].
  - rewrite append_nil. destruct rest; reflexivity.
  - rewrite append_cons. simpl. rewrite IH. reflexivity.
Qed.

Lemma String_substring_all s :
  String.substring 0 (String.length s) s = s.
Proof. induction s as [|a s IH]; [reflexivity|]. simpl. rewrite IH. reflexivity. Qed.

Lemma String_substring_suffix pre rest :
  String.substring (String.length pre) (String.length rest) (pre +:+ rest) = rest.
Proof.
  induction pre as [|a pre IH].
  - rewrite append_nil. apply String_substring_all.
  - rewrite append_cons. simpl. exact IH.
Qed.

Lemma substring_prefix pre rest :
  JS.substring (pre +:+ rest) 0 (Z.of_nat (String.length pre)) = pre.
Proof.
  unfold JS.substring, JS.clamp. rewrite length_append.
  replace (Z.max 0 (Z.min 0 _)) with 0 by lia.
  replace (Z.max 0 (Z.min (Z.of_nat (String.length pre)) _))
    with (Z.of_nat (String.length pre)) by lia.
  replace (Z.min 0 (Z.of_nat (String.length pre))) with 0 by lia.
  replace (Z.max 0 (Z.of_nat (String.length pre))) with (Z.of_nat (String.length pre)) by lia.
  rewrite Z.sub_0_r, Nat2Z.id. apply String_substring_prefix.
Qed.

Lemma substring_from_suffix pre rest :
  JS.substring_from (pre +:+ rest) (Z.of_nat (String.length pre)) = rest.
Proof.
  unfold JS.substring_from, JS.substring, JS.clamp. rewrite length_append.
  set (a := Z.of_nat (String.length pre)).
  set (n := Z.of_nat (String.length pre + String.length rest)).
  assert (Ha : 0 <= a <= n) by (unfold a, n; lia).
  replace (Z.max 0 (Z.min a n)) with a by lia.
  replace (Z.max 0 (Z.min n n)) with n by lia.
  replace (Z.min a n) with a by lia.
  replace (Z.max a n) with n by lia.
  replace (Z.to_nat (n - a)) with (String.length rest) by (unfold a, n; lia).
  unfold a. rewrite Nat2Z.id. apply String_substring_suffix.
Qed.

Lemma substring_from_after pre c post :
  JS.substring_from (pre +:+ String c post) (Z.of_nat (String.length pre) + 1) = post.
Proof.
  replace (pre +:+ String c post) with ((pre +:+ String c "") +:+ post).
  - replace (Z.of_nat (String.length pre) + 1)
      with (Z.of_nat (String.length (pre +:+ String c ""))).
    + apply substring_from_suffix.
    + rewrite length_append. simpl. lia.
  - rewrite append_assoc. reflexivity.
Qed.

Lemma substring_from_start s : JS.substring_from s 0 = s.
Proof. exact (substring_from_suffix "" s). Qed.

Lemma substring_to_minus_one s : JS.substring s 0 (-1) = "".
Proof.
  unfold JS.substring, JS.clamp.
  replace (Z.max 0 (Z.min 0 _)) with 0 by lia.
  replace (Z.max 0 (Z.min (-1) _)) with 0 by lia.
  simpl. destruct s; reflexivity.
Qed.

(** The directory and the last segment of a string that contains a slash. *)
Lemma last_slash_split pre post :
  occurs "/" post = false ->
  JS.substring (pre +:+ String "/" post) 0 (JS.lastIndexOf "/" (pre +:+ String "/" post)) = pre
  /\ JS.substring_from (pre +:+ String "/" post)
       (JS.lastIndexOf "/" (pre +:+ String "/" post) + 1) = post.
Proof.
  intros H. rewrite (lastIndexOf_last _ _ _ H). split.
  - apply substring_prefix.
  - apply substring_from_after.
Qed.

(** How the resolved path of a config splits at its last slash: [dir] is
    [fullDir], [base] is [justFileName]. *)
Lemma resolved_path_cases config :
  (occurs "/" (filePath_of config) = false
   /\ fullDir_of config = ""
   /\ justFileName_of config = fileName config
   /\ folder config = "")
  \/ (occurs "/" (filePath_of config) = true
      /\ filePath_of config
         = fullDir_of config +:+ "/" +:+ justFileName_of config +:+ ".md"
      /\ occurs "/" (justFileName_of config) = false
      /\ (occurs "/" (fileName config) = false -> fullDir_of config = folder config)).
Proof.
  unfold fullDir_of, justFileName_of, filePath_of.
  destruct config as [fn fo tp]. cbn [fileName folder templatePath].
  destruct (occurs "/" fn) eqn:Efn.
  - right. destruct (occurs_split _ _ Efn) as (fpre & fpost & -> & Hpost).
    destruct (last_slash_split fpre fpost Hpost) as [_ Hjust]. rewrite Hjust.
    assert (Hmd : occurs "/" (fpost +:+ ".md") = false)
      by (rewrite occurs_app, Hpost; reflexivity).
    destruct fo as [|a fo]; cbn [JS.truthy].
    + rewrite append_assoc.
      change (String "/" fpost +:+ ".md") with (String "/" (fpost +:+ ".md")).
      destruct (last_slash_split fpre _ Hmd) as [Hdir _]. rewrite Hdir.
      split; [apply occurs_after|]. split; [reflexivity|].
      split; [exact Hpost|]. intros H. congruence.
    + replace (String a fo +:+ "/" +:+ (fpre +:+ String "/" fpost) +:+ ".md")
        with ((String a fo +:+ "/" +:+ fpre) +:+ String "/" (fpost +:+ ".md"))
        by (rewrite !append_assoc; reflexivity).
      destruct (last_slash_split (String a fo +:+ "/" +:+ fpre) _ Hmd) as [Hdir _].
      rewrite Hdir.
      split; [apply occurs_after|]. split; [reflexivity|].
      split; [exact Hpost|]. intros H. congruence.
  - rewrite (lastIndexOf_absent_char _ _ Efn). change (-1 + 1) with 0.
    rewrite substring_from_start.
    assert (Hmd : occurs "/" (fn +:+ ".md") = false)
      by (rewrite occurs_app, Efn; reflexivity).
    destruct fo as [|a fo]; cbn [JS.truthy].
    + left. rewrite (lastIndexOf_absent_char _ _ Hmd), substring_to_minus_one.
      split; [exact Hmd|]. split; [reflexivity|]. split; reflexivity.
    + right.
      change (String a fo +:+ "/" +:+ fn +:+ ".md")
        with (String a fo +:+ String "/" (fn +:+ ".md")).
      destruct (last_slash_split (String a fo) _ Hmd) as [Hdir _]. rewrite Hdir.
      split; [apply occurs_after|]. split; [reflexivity|].
      split; [exact Efn|]. intros _. reflexivity.
Qed.

(** ** [ensureFoldersExist]: the vault it leaves and the folders it creates *)

Lemma ensure_vault_lookup paths (v : gmap string TAbstractFile) q :
  ensure_vault paths v !! q =
  match v !! q with
  | Some f => Some f
  | None => if decide (q ∈ paths) then Some (TFolder q) else None
  end.
Proof.
  revert v. induction paths as [|p ps IH]; intros v.
  - cbn [ensure_vault]. destruct (v !! q); [reflexivity|].
    destruct (decide (q ∈ [])) as [H|_]; [|reflexivity].
    apply elem_of_nil in H. destruct H.
  - cbn [ensure_vault]. destruct (v !! p) as [fp|] eqn:Ep.
    + rewrite IH. destruct (v !! q) as [fq|] eqn:Eq; [reflexivity|].
      destruct (decide (q ∈ ps)) as [H|H], (decide (q ∈ p :: ps)) as [H'|H'];
        try reflexivity.
      * exfalso. apply H'. apply elem_of_cons. right. exact H.
      * apply elem_of_cons in H'. destruct H' as [->|H']; [congruence|contradiction].
    + rewrite IH. destruct (decide (p = q)) as [->|Hne].
      * rewrite lookup_insert_eq, Ep.
        destruct (decide (q ∈ q :: ps)) as [_|H']; [reflexivity|].
        exfalso. apply H'. apply elem_of_cons. left. reflexivity.
      * rewrite lookup_insert_ne by exact Hne.
        destruct (v !! q) as [fq|]; [reflexivity|].
        destruct (decide (q ∈ ps)) as [H|H], (decide (q ∈ p :: ps)) as [H'|H'];
          try reflexivity.
        -- exfalso. apply H'. apply elem_of_cons. right. exact H.
        -- apply elem_of_cons in H'. destruct H' as [->|H']; [congruence|contradiction].
Qed.

Lemma ensureFoldersExist_vault fullDir app v :
  vault_after (ensureFoldersExist fullDir) app v = ensure_vault (visited_paths fullDir) v.
Proof.
  unfold vault_after, visited_paths. rewrite ensureFoldersExist_run.
  destruct (JS.truthy fullDir); reflexivity.
Qed.

Lemma ensureFoldersExist_calls fullDir app v :
  calls_of (ensureFoldersExist fullDir) app v = ensure_calls (visited_paths fullDir) v.
Proof.
  unfold calls_of, visited_paths. rewrite ensureFoldersExist_run.
  destruct (JS.truthy fullDir); reflexivity.
Qed.

(** X1: The vault [ensureFoldersExist] leaves: every entry that was there
    is kept as it was, every visited path that was missing is now a folder,
    and nothing else is added. *)
Theorem ensureFoldersExist_final_vault fullDir app (v : gmap string TAbstractFile) q :
  vault_after (ensureFoldersExist fullDir) app v !! q =
  match v !! q with
  | Some f => Some f
  | None => if decide (q ∈ visited_paths fullDir) then Some (TFolder q) else None
  end.
Proof. rewrite ensureFoldersExist_vault. apply ensure_vault_lookup. Qed.

Lemma ensure_settled paths (v : gmap string TAbstractFile) :
  (forall p, In p paths -> is_Some (v !! p)) ->
  ensure_vault paths v = v
  /\ ensure_calls paths v = List.map GetAbstractFileByPath paths.
Proof.
  induction paths as [|p ps IH]; intros H; [split; reflexivity|].
  cbn [ensure_vault ensure_calls List.map].
  destruct (H p (or_introl eq_refl)) as [f Hf]. rewrite Hf.
  destruct IH as [IH1 IH2]; [intros q Hq; apply H; right; exact Hq|].
  rewrite IH1, IH2. split; reflexivity.
Qed.

Lemma created_folders_lookups paths :
  created_folders (List.map GetAbstractFileByPath paths) = [].
Proof. induction paths as [|p ps IH]; [reflexivity|exact IH]. Qed.

(** X2: [ensureFoldersExist] is idempotent: run again on the vault it
    left, it only looks the paths up, creates no folder and leaves the vault
    as it is. *)
Theorem ensureFoldersExist_idempotent fullDir app v :
  let v' := vault_after (ensureFoldersExist fullDir) app v in
  vault_after (ensureFoldersExist fullDir) app v' = v'
  /\ calls_of (ensureFoldersExist fullDir) app v'
     = List.map GetAbstractFileByPath (visited_paths fullDir)
  /\ created_folders (calls_of (ensureFoldersExist fullDir) app v') = [].
Proof.
  cbv zeta. rewrite !ensureFoldersExist_vault, ensureFoldersExist_calls.
  destruct (ensure_settled (visited_paths fullDir)
              (ensure_vault (visited_paths fullDir) v)) as [H1 H2].
  { intros p Hp. apply ensure_vault_exists, Hp. }
  rewrite H1, H2. split; [reflexivity|]. split; [reflexivity|].
  apply created_folders_lookups.
Qed.

Lemma created_folders_app cs1 cs2 :
  created_folders (cs1 ++ cs2) = created_folders cs1 ++ created_folders cs2.
Proof.
  induction cs1 as [|c cs1 IH]; [reflexivity|].
  destruct c; cbn; rewrite IH; reflexivity.
Qed.

Lemma ensure_calls_created paths (v : gmap string TAbstractFile) :
  List.NoDup (created_folders (ensure_calls paths v))
  /\ forall p, In p (created_folders (ensure_calls paths v)) <->
               In p paths /\ v !! p = None.
Proof.
  revert v. induction paths as [|q qs IH]; intros v.
  - cbn. split; [constructor|]. intros p. split; [intros []|intros [[] _]].
  - cbn [ensure_calls]. destruct (v !! q) as [f|] eqn:Eq.
    + cbn [created_folders]. destruct (IH v) as [Hnd Hin]. split; [exact Hnd|].
      intros p. rewrite Hin. split.
      * intros [Hp Hv]. split; [right; exact Hp|exact Hv].
      * intros [[->|Hp] Hv]; [congruence|]. split; assumption.
    + cbn [created_folders]. destruct (IH (<[q := TFolder q]> v)) as [Hnd Hin]. split.
      * constructor; [|exact Hnd]. intros Hq. apply Hin in Hq.
        destruct Hq as [_ Hq]. rewrite lookup_insert_eq in Hq. discriminate Hq.
      * intros p. cbn [In]. rewrite Hin. split.
        -- intros [<-|[Hp Hv]]; [split; [left; reflexivity|exact Eq]|].
           destruct (decide (q = p)) as [->|Hne].
           ++ rewrite lookup_insert_eq in Hv. discriminate Hv.
           ++ rewrite lookup_insert_ne in Hv by exact Hne.
              split; [right; exact Hp|exact Hv].
        -- intros [[->|Hp] Hv]; [left; reflexivity|].
           destruct (decide (q = p)) as [->|Hne]; [left; reflexivity|].
           right. split; [exact Hp|]. rewrite lookup_insert_ne by exact Hne. exact Hv.
Qed.

Lemma created_folders_visited fullDir app (v : gmap string TAbstractFile) p :
  In p (created_folders (calls_of (ensureFoldersExist fullDir) app v)) ->
  In p (visited_paths fullDir).
Proof.
  rewrite ensureFoldersExist_calls. intros H.
  apply (proj2 (ensure_calls_created _ v)) in H. exact (proj1 H).
Qed.

(** X3: [ensureFoldersExist] calls [createFolder] once for each visited
    path that is missing from the vault it starts on, and for no other
    path: never twice for one path, never for a path that exists. *)
Theorem ensureFoldersExist_creates_missing fullDir app (v : gmap string TAbstractFile) :
  List.NoDup (created_folders (calls_of (ensureFoldersExist fullDir) app v))
  /\ forall p, In p (created_folders (calls_of (ensureFoldersExist fullDir) app v)) <->
               In p (visited_paths fullDir) /\ v !! p = None.
Proof. rewrite ensureFoldersExist_calls. apply ensure_calls_created. Qed.

(** X4: On a path that is not empty and does not start with a slash,
    [ensureFoldersExist] looks up the prefixes of the path, shortest first,
    and creates each missing one right after its lookup; afterwards every
    prefix, and so the path itself, exists. *)
Theorem ensureFoldersExist_prefixes fullDir app v :
  relative_path fullDir = true ->
  visited_paths fullDir = path_prefixes fullDir
  /\ calls_of (ensureFoldersExist fullDir) app v
     = List.flat_map (check_then_create v) (path_prefixes fullDir)
  /\ (forall q, In q (path_prefixes fullDir) ->
        is_Some (vault_after (ensureFoldersExist fullDir) app v !! q))
  /\ is_Some (vault_after (ensureFoldersExist fullDir) app v !! fullDir).
Proof.
  intros Hrel. destruct (ensureFoldersExist_relative fullDir app v Hrel) as [Hc Hv].
  split.
  - unfold visited_paths.
    replace (JS.truthy fullDir) with true
      by (destruct fullDir; [discriminate Hrel|reflexivity]).
    apply visited_relative, Hrel.
  - split; [exact Hc|]. split; [exact Hv|]. apply Hv, path_prefixes_self.
Qed.

Lemma ensureFoldersExist_prefixes_witness :
  calls_of (ensureFoldersExist "Notes/2024") noPlugins {[ "Notes" := TFolder "Notes" ]}
  = [GetAbstractFileByPath "Notes"; GetAbstractFileByPath "Notes/2024";
     CreateFolder "Notes/2024"].
Proof.
  rewrite (proj1 (proj2 (ensureFoldersExist_prefixes "Notes/2024" noPlugins
                           {[ "Notes" := TFolder "Notes" ]} eq_refl))).
  vm_compute. reflexivity.
Defined.

(** ** [openOrCreateNote]: where it creates, what it leaves *)

Lemma total_length_split s :
  total_length (JS.split "/" s) = S (String.length s).
Proof.
  induction s as [|c s IH]; [reflexivity|].
  cbn [JS.split]. destruct (Ascii.eqb c "/").
  - cbn [total_length String.length]. rewrite IH. reflexivity.
  - destruct (JS.split "/" s) as [|p ps]; [discriminate IH|].
    cbn [total_length String.length] in *. lia.
Qed.

Lemma visited_length parts currentPath p :
  In p (visited parts currentPath) ->
  (S (String.length p)
   <= String.length currentPath + total_length parts
      + (if JS.truthy currentPath then 1 else 0))%nat.
Proof.
  revert currentPath. induction parts as [|part parts IH]; intros cur Hin; [destruct Hin|].
  cbn [visited] in Hin. cbn [total_length].
  destruct cur as [|a cur].
  - unfold next_path in Hin. cbn [JS.truthy] in Hin.
    destruct Hin as [<-|Hin]; [cbn; lia|].
    specialize (IH _ Hin). destruct part; cbn [JS.truthy String.length] in *; lia.
  - unfold next_path in Hin. cbn [JS.truthy] in Hin.
    destruct Hin as [<-|Hin].
    + rewrite !length_append. cbn [String.length JS.truthy]. lia.
    + specialize (IH _ Hin). rewrite !append_cons in IH.
      cbn [JS.truthy String.length] in *.
      rewrite !length_append in IH. rewrite append_nil in IH.
      cbn [String.length] in IH. lia.
Qed.

(** No path [ensureFoldersExist] visits is longer than its argument. *)
Lemma visited_paths_length fullDir p :
  In p (visited_paths fullDir) -> (String.length p <= String.length fullDir)%nat.
Proof.
  unfold visited_paths. destruct (JS.truthy fullDir); [|intros []].
  intros Hin. apply visited_length in Hin. rewrite total_length_split in Hin.
  cbn in Hin. lia.
Qed.

Lemma fullDir_shorter config p :
  In p (visited_paths (fullDir_of config)) ->
  (String.length p < String.length (filePath_of config))%nat.
Proof.
  intros Hin. pose proof (visited_paths_length _ _ Hin) as Hlen.
  destruct (resolved_path_cases config) as [(_ & Hdir & _)|(_ & Hfp & _)].
  - rewrite Hdir in Hin. destruct Hin.
  - rewrite Hfp, !length_append. cbn [String.length]. lia.
Qed.

(** X5: The folders [openOrCreateNote] creates never occupy the note's own
    path: when nothing exists at the resolved path, nothing exists there
    either once the folders are made, which is when [vault.create] or the
    template instantiation runs. *)
Theorem note_path_stays_free config app (v : gmap string TAbstractFile) :
  v !! filePath_of config = None ->
  vault_after (ensureFoldersExist (fullDir_of config)) app v !! filePath_of config = None
  /\ ~ In (filePath_of config)
         (created_folders (calls_of (openOrCreateNote config) app v)).
Proof.
  intros Hf.
  assert (Hnot : ~ In (filePath_of config) (visited_paths (fullDir_of config))).
  { intros Hin. apply fullDir_shorter in Hin. lia. }
  split.
  - rewrite ensureFoldersExist_vault, ensure_vault_lookup, Hf.
    destruct (decide (filePath_of config ∈ visited_paths (fullDir_of config))) as [H|_];
      [|reflexivity].
    exfalso. apply Hnot. apply list_elem_of_In. exact H.
  - rewrite (calls_missing _ _ _ Hf), !created_folders_app.
    replace (created_folders (template_lookup_calls config)) with (@nil string)
      by (unfold template_lookup_calls; destruct (JS.truthy _); reflexivity).
    replace (created_folders (creation_calls config app v)) with (@nil string)
      by (destruct (creation_calls_cases config app v) as [[_ [t [_ ->]]]|[_ ->]];
          reflexivity).
    cbn [created_folders List.app]. rewrite app_nil_r.
    intros Hin. apply created_folders_visited in Hin. apply Hnot, Hin.
Qed.

Lemma note_path_stays_free_witness :
  vault_after (ensureFoldersExist (fullDir_of dailyNote)) noPlugins ∅
    !! filePath_of dailyNote = None.
Proof.
  refine (proj1 (note_path_stays_free dailyNote noPlugins ∅ _)). apply lookup_empty.
Defined.

Lemma vault_missing_empty_branch config app v :
  v !! filePath_of config = None ->
  template_used config app v = false ->
  vault_after (openOrCreateNote config) app v =
  <[filePath_of config := TFile (filePath_of config)]>
    (vault_after (ensureFoldersExist (fullDir_of config)) app v).
Proof.
  intros Hf Hu. unfold vault_after at 1. rewrite (openOrCreateNote_missing _ _ _ Hf).
  unfold vault_after. cbv zeta.
  destruct (ensureFoldersExist (fullDir_of config) app v) as [[[] v1] folders].
  rewrite createNoteWithTemplate_run. unfold template_used in Hu.
  destruct (result_of (getTemplateFile (templatePath config)) app v) as [t|];
    [rewrite Hu|]; reflexivity.
Qed.

(** X6: In the empty-file branch the note exists as a file at the resolved
    path afterwards, every entry the vault had is kept as it was, and a
    second call on the vault left behind only checks and opens the note. *)
Theorem openOrCreateNote_then_reopen config app (v : gmap string TAbstractFile) :
  v !! filePath_of config = None ->
  template_used config app v = false ->
  let v' := vault_after (openOrCreateNote config) app v in
  v' !! filePath_of config = Some (TFile (filePath_of config))
  /\ (forall q f, v !! q = Some f -> v' !! q = Some f)
  /\ openOrCreateNote config app v' =
     (tt, v', [GetAbstractFileByPath (filePath_of config);
               OpenLinkText (filePath_of config) "" false]).
Proof.
  intros Hf Hu. cbv zeta. rewrite (vault_missing_empty_branch _ _ _ Hf Hu).
  assert (Hnew : <[filePath_of config := TFile (filePath_of config)]>
                   (vault_after (ensureFoldersExist (fullDir_of config)) app v)
                 !! filePath_of config = Some (TFile (filePath_of config)))
    by apply lookup_insert_eq.
  split; [exact Hnew|]. split.
  - intros q f Hq. rewrite lookup_insert_ne by congruence.
    rewrite ensureFoldersExist_vault, ensure_vault_lookup, Hq. reflexivity.
  - apply (openOrCreateNote_existing _ _ _ _ Hnew).
Qed.

Lemma openOrCreateNote_then_reopen_witness :
  calls_of (openOrCreateNote dailyNote) noPlugins
    (vault_after (openOrCreateNote dailyNote) noPlugins ∅)
  = [GetAbstractFileByPath "Daily/2024-01-01.md"; OpenLinkText "Daily/2024-01-01.md" "" false].
Proof.
  destruct (openOrCreateNote_then_reopen dailyNote noPlugins ∅) as (_ & _ & H).
  - apply lookup_empty.
  - vm_compute. reflexivity.
  - unfold calls_of. rewrite H. reflexivity.
Defined.

Lemma preparation_calls_kinds config app v :
  Forall (fun c => is_folder_call c = true \/ c = PluginLookup "templater-obsidian")
    (preparation_calls config app v).
Proof.
  unfold preparation_calls. repeat (apply Forall_app; split).
  - constructor; [left; reflexivity|].
    constructor; [right; reflexivity|constructor].
  - eapply Forall_impl; [apply template_lookup_folder_calls|]. cbn. auto.
  - eapply Forall_impl; [apply ensureFoldersExist_folder_calls|]. cbn. auto.
Qed.

(** X7: Every call of [openOrCreateNote] opens the editor exactly once,
    through [openLinkText] or through the open flag of the template
    instantiation.  It waits once, for 300 ms, when it creates the note and
    not at all when the note exists. *)
Theorem openOrCreateNote_opens_once config app (v : gmap string TAbstractFile) :
  let calls := calls_of (openOrCreateNote config) app v in
  count_calls opens_editor calls = 1%nat
  /\ count_calls is_delay calls
     = match v !! filePath_of config with Some _ => 0%nat | None => 1%nat end
  /\ forall ms, In (SetTimeout ms) calls -> ms = 300.
Proof.
  cbv zeta. destruct (v !! filePath_of config) as [f|] eqn:Hf.
  - rewrite calls_existing by (rewrite Hf; eauto).
    split; [reflexivity|]. split; [reflexivity|].
    intros ms [H|[H|[]]]; discriminate H.
  - rewrite (calls_missing_split _ _ _ Hf), !count_calls_app.
    rewrite !preparation_count by reflexivity.
    pose proof (preparation_calls_kinds config app v) as Hprep.
    rewrite List.Forall_forall in Hprep.
    destruct (creation_calls_cases config app v) as [[_ [t [_ ->]]]|[_ ->]].
    + split; [reflexivity|]. split; [reflexivity|].
      intros ms Hin. apply in_app_or in Hin. destruct Hin as [Hin|Hin].
      * destruct (Hprep _ Hin) as [H|H]; discriminate H.
      * destruct Hin as [H|[H|[]]]; [discriminate H|]. injection H as <-. reflexivity.
    + split; [reflexivity|]. split; [reflexivity|].
      intros ms Hin. apply in_app_or in Hin. destruct Hin as [Hin|Hin].
      * destruct (Hprep _ Hin) as [H|H]; discriminate H.
      * destruct Hin as [H|[H|[H|[]]]]; try discriminate H.
        injection H as <-. reflexivity.
Qed.

Lemma justFileName_flat config :
  occurs "/" (fileName config) = false -> justFileName_of config = fileName config.
Proof.
  intros H. unfold justFileName_of. rewrite (lastIndexOf_absent_char _ _ H).
  apply substring_from_start.
Qed.

(** X8: In the template branch Templater is called once, with the template
    file found in the vault at [templatePath + ".md"], the directory of the
    resolved path, a file name without any slash, and the open flag set.
    When the resolved path has a directory part, directory, file name and
    [".md"] put together give the resolved path again. *)
Theorem template_call_arguments config app (v : gmap string TAbstractFile) :
  v !! filePath_of config = None ->
  template_used config app v = true ->
  let calls := calls_of (openOrCreateNote config) app v in
  (exists t,
     v !! (templatePath config +:+ ".md") = Some t
     /\ List.filter is_template_instantiation calls
        = [CreateNewNoteFromTemplate t (fullDir_of config) (justFileName_of config) true])
  /\ occurs "/" (justFileName_of config) = false
  /\ (if occurs "/" (filePath_of config)
      then filePath_of config
           = fullDir_of config +:+ "/" +:+ justFileName_of config +:+ ".md"
      else fullDir_of config = ""
           /\ filePath_of config = justFileName_of config +:+ ".md").
Proof.
  intros Hf Hu. cbv zeta. split; [|split].
  - destruct (creation_calls_cases config app v) as [[_ [t [Ht Hc]]]|[Hu' _]];
      [|congruence].
    exists t. split.
    + rewrite getTemplateFile_result in Ht.
      destruct (JS.truthy (templatePath config)); [|discriminate Ht].
      destruct (v !! (templatePath config +:+ ".md")) as [[p|p]|]; congruence.
    + rewrite (calls_missing_split _ _ _ Hf), List.filter_app, Hc.
      assert (Hprep : List.filter is_template_instantiation (preparation_calls config app v) = []).
      { pose proof (preparation_count is_template_instantiation config app v
                      ltac:(reflexivity) ltac:(reflexivity) eq_refl) as H.
        unfold count_calls in H.
        destruct (List.filter _ _); [reflexivity|discriminate H]. }
      rewrite Hprep. reflexivity.
  - destruct (resolved_path_cases config) as [(Hfp & _ & Hj & Hfo)|(_ & _ & Hj & _)];
      [|exact Hj].
    rewrite Hj. unfold filePath_of in Hfp. rewrite Hfo in Hfp. cbn [JS.truthy] in Hfp.
    rewrite occurs_app in Hfp. apply orb_false_iff in Hfp. exact (proj1 Hfp).
  - destruct (resolved_path_cases config) as [(Hfp & Hd & Hj & Hfo)|(Hfp & Heq & _)];
      rewrite Hfp.
    + split; [exact Hd|]. rewrite Hj. unfold filePath_of. rewrite Hfo. reflexivity.
    + exact Heq.
Qed.

Lemma template_call_arguments_witness :
  List.filter is_template_instantiation
    (calls_of (openOrCreateNote dailyNote) withTemplater vaultWithTemplate)
  = [CreateNewNoteFromTemplate (TFile "Templates/Daily.md") "Daily" "2024-01-01" true].
Proof.
  destruct (template_call_arguments dailyNote withTemplater vaultWithTemplate)
    as [[t [Ht Hc]] _].
  - vm_compute. reflexivity.
  - vm_compute. reflexivity.
  - rewrite Hc. vm_compute in Ht. injection Ht as <-. reflexivity.
Defined.

(** X9: With a file name that holds no slash, the directory worked on is
    the configured folder itself, so the folders created are those
    [ensureFoldersExist] creates for that folder; the name handed to
    Templater is the file name. *)
Theorem flat_name_uses_folder config app (v : gmap string TAbstractFile) :
  occurs "/" (fileName config) = false ->
  fullDir_of config = folder config
  /\ justFileName_of config = fileName config
  /\ created_folders (calls_of (openOrCreateNote config) app v)
     = match v !! filePath_of config with
       | Some _ => []
       | None => created_folders (calls_of (ensureFoldersExist (folder config)) app v)
       end.
Proof.
  intros Hfn.
  assert (Hdir : fullDir_of config = folder config).
  { destruct (resolved_path_cases config) as [(_ & Hd & _ & Hfo)|(_ & _ & _ & H)].
    - rewrite Hd, Hfo. reflexivity.
    - exact (H Hfn). }
  split; [exact Hdir|]. split; [exact (justFileName_flat _ Hfn)|].
  destruct (v !! filePath_of config) as [f|] eqn:Hf.
  - rewrite calls_existing by (rewrite Hf; eauto). reflexivity.
  - rewrite (calls_missing _ _ _ Hf), !created_folders_app, Hdir.
    replace (created_folders (template_lookup_calls config)) with (@nil string)
      by (unfold template_lookup_calls; destruct (JS.truthy _); reflexivity).
    replace (created_folders (creation_calls config app v)) with (@nil string)
      by (destruct (creation_calls_cases config app v) as [[_ [t [_ ->]]]|[_ ->]];
          reflexivity).
    cbn [created_folders List.app]. apply app_nil_r.
Qed.

Lemma flat_name_uses_folder_witness :
  fullDir_of dailyNote = "Daily"
  /\ created_folders (calls_of (openOrCreateNote dailyNote) noPlugins ∅) = ["Daily"].
Proof.
  destruct (flat_name_uses_folder dailyNote noPlugins ∅ eq_refl) as (H1 & _ & H3).
  split; [exact H1|]. rewrite H3. vm_compute. reflexivity.
Defined.

(** X10: [getTemplateFile] never changes the vault and makes no lookup for
    an empty template path.  What it returns is a file, and the entry the
    vault holds at [templatePath + ".md"]; a folder at that path, or
    nothing, gives [null]. *)
Theorem getTemplateFile_only_files templatePath app (v : gmap string TAbstractFile) :
  vault_after (getTemplateFile templatePath) app v = v
  /\ (templatePath = "" -> getTemplateFile templatePath app v = (None, v, []))
  /\ (forall f, result_of (getTemplateFile templatePath) app v = Some f ->
        templatePath <> ""
        /\ (exists p, f = TFile p)
        /\ v !! (templatePath +:+ ".md") = Some f)
  /\ (forall p, v !! (templatePath +:+ ".md") = Some (TFolder p) ->
        result_of (getTemplateFile templatePath) app v = None)
  /\ (v !! (templatePath +:+ ".md") = None ->
        result_of (getTemplateFile templatePath) app v = None).
Proof.
  split; [|split; [|split; [|split]]].
  - unfold vault_after. rewrite getTemplateFile_run. reflexivity.
  - intros ->. reflexivity.
  - intros f. rewrite getTemplateFile_result.
    destruct templatePath as [|c tp]; [discriminate|]. cbn [JS.truthy].
    destruct (v !! (String c tp +:+ ".md")) as [[p|p]|]; try discriminate.
    intros H. injection H as <-. split; [discriminate|]. split; [eauto|reflexivity].
  - intros p Hp. rewrite getTemplateFile_result, Hp.
    destruct (JS.truthy templatePath); reflexivity.
  - intros Hp. rewrite getTemplateFile_result, Hp.
    destruct (JS.truthy templatePath); reflexivity.
Qed.

(** ** The handlers: parsing, the week row, the happy path, the menu *)

Lemma returns_or_opens_counts m app (v : gmap string TAbstractFile) :
  returns_or_opens m ->
  (count_calls is_creation (calls_of m app v) <= 1)%nat
  /\ (count_calls opens_editor (calls_of m app v) <= 1)%nat.
Proof.
  intros [->|[config ->]].
  - cbn. lia.
  - destruct (creation_count config app v) as [H1 H2]. lia.
Qed.

Section HandlerCoverage.

Context {D : DayjsLib}.
Variable settings : Settings.
Variable document : Document.

(** X11: [parseDate] returns the date of the first format, in the order
    given, under which the text is valid, and [null] exactly when the text
    is valid under none; the date it returns is always valid. *)
Theorem parseDate_first_valid text formats :
  (parseDate text formats = None <->
     Forall (fun fmt => isValid (dayjs text fmt) = false) formats)
  /\ (forall d, parseDate text formats = Some d <->
        exists before fmt after,
          formats = before ++ fmt :: after
          /\ Forall (fun f => isValid (dayjs text f) = false) before
          /\ isValid (dayjs text fmt) = true
          /\ d = dayjs text fmt).
Proof.
  induction formats as [|fmt0 formats [IHn IHs]].
  - split; [split; [constructor|reflexivity]|].
    intros d. split; [discriminate|].
    intros (before & fmt & after & H & _). destruct before; discriminate H.
  - cbn [parseDate]. destruct (isValid (dayjs text fmt0)) eqn:E.
    + split.
      * split; [discriminate|]. intros H. inversion H as [|? ? H0 _]; subst. congruence.
      * intros d. split.
        -- intros H. injection H as <-. exists [], fmt0, formats. repeat split; auto.
        -- intros (before & fmt & after & Hf & Hb & Hv & ->).
           destruct before as [|b before].
           ++ injection Hf as -> _. reflexivity.
           ++ injection Hf as -> _. inversion Hb as [|? ? H0 _]; subst. congruence.
    + split.
      * rewrite IHn. split; [intros H; constructor; assumption|].
        intros H. inversion H; subst. assumption.
      * intros d. rewrite IHs. split.
        -- intros (before & fmt & after & -> & Hb & Hv & ->).
           exists (fmt0 :: before), fmt, after. repeat split; auto.
        -- intros (before & fmt & after & Hf & Hb & Hv & ->).
           destruct before as [|b before].
           ++ injection Hf as -> _. congruence.
           ++ injection Hf as -> ->. inversion Hb; subst.
              exists before, fmt, after. repeat split; auto.
Qed.

Lemma findWeekIndex_nomatch tiles t i acc :
  Forall (fun tile => element_id tile <> element_id t) tiles ->
  findWeekIndex tiles t i acc = acc.
Proof.
  intros H. revert i acc. induction H as [|tile tiles Hne _ IH]; intros i acc; [reflexivity|].
  cbn [findWeekIndex]. apply Nat.eqb_neq in Hne. rewrite Hne. apply IH.
Qed.

Lemma findWeekIndex_at pre tile post t i acc :
  element_id tile = element_id t ->
  Forall (fun tile' => element_id tile' <> element_id t) post ->
  findWeekIndex (pre ++ tile :: post) t i acc = i + Z.of_nat (length pre).
Proof.
  intros Hid Hpost. revert i acc. induction pre as [|p pre IH]; intros i acc.
  - cbn [List.app findWeekIndex length]. rewrite Hid, Nat.eqb_refl.
    rewrite (findWeekIndex_nomatch _ _ _ _ Hpost). lia.
  - cbn [List.app findWeekIndex length]. rewrite IH. lia.
Qed.

Lemma tiles_last_match tiles t :
  Forall (fun tile => element_id tile <> element_id t) tiles
  \/ exists pre tile post,
       tiles = pre ++ tile :: post
       /\ element_id tile = element_id t
       /\ Forall (fun tile' => element_id tile' <> element_id t) post.
Proof.
  induction tiles as [|tile0 tiles IH]; [left; constructor|].
  destruct IH as [Hno|(pre & tile & post & -> & Hid & Hpost)].
  - destruct (Nat.eq_dec (element_id tile0) (element_id t)) as [Heq|Hne].
    + right. exists [], tile0, tiles. auto.
    + left. constructor; assumption.
  - right. exists (tile0 :: pre), tile, post. auto.
Qed.

(** X12: The [forEach] of [handleWeekNumberClick] leaves [weekIndex] at
    [-1] exactly when no week tile is the clicked element, and otherwise at
    the index of the last tile that is; that index lies within the list. *)
Theorem findWeekIndex_last_match tiles t :
  (Forall (fun tile => element_id tile <> element_id t) tiles
   /\ findWeekIndex tiles t 0 (-1) = -1)
  \/ (exists pre tile post,
        tiles = pre ++ tile :: post
        /\ element_id tile = element_id t
        /\ Forall (fun tile' => element_id tile' <> element_id t) post
        /\ findWeekIndex tiles t 0 (-1) = Z.of_nat (length pre)
        /\ 0 <= findWeekIndex tiles t 0 (-1) < Z.of_nat (length tiles)).
Proof.
  destruct (tiles_last_match tiles t) as [Hno|(pre & tile & post & -> & Hid & Hpost)].
  - left. split; [exact Hno|]. apply findWeekIndex_nomatch, Hno.
  - right. exists pre, tile, post.
    rewrite (findWeekIndex_at _ _ _ _ 0 (-1) Hid Hpost), length_app. cbn [length].
    repeat split; auto; lia.
Qed.

(** X13: a click on the week tile at position [k] is decided by the day
    tile at position [7 * k], the first day of that row: the handler returns
    at once when that tile or its [abbr] is missing or its [aria-label] is
    not a valid date, and otherwise is [openOrCreateNote] on the weekly
    settings and the date parsed from that label. *)
Theorem week_click_reads_first_day pre t post :
  weekNumberTiles document = pre ++ t :: post ->
  Forall (fun tile => element_id tile <> element_id t) post ->
  handleWeekNumberClick settings document t =
  match dayTiles document !! (7 * length pre)%nat with
  | Some firstDayOfWeek =>
      match abbr firstDayOfWeek with
      | Some abbrEl =>
          let weekDate := dayjs (JS.or_else (aria_label abbrEl) "") "MMMM D, YYYY" in
          if isValid weekDate then openOrCreateNote (weeklyConfig settings weekDate)
          else ret tt
      | None => ret tt
      end
  | None => ret tt
  end.
Proof.
  intros Htiles Hpost. unfold handleWeekNumberClick. cbv zeta.
  rewrite Htiles, (findWeekIndex_at _ _ _ _ 0 (-1) eq_refl Hpost).
  replace (0 + Z.of_nat (length pre) =? -1)%Z with false by (symmetry; apply Z.eqb_neq; lia).
  replace (Z.to_nat ((0 + Z.of_nat (length pre)) * 7)) with (7 * length pre)%nat by lia.
  destruct (dayTiles document !! (7 * length pre)%nat) as [tile|]; [|reflexivity].
  destruct (abbr tile) as [abbrEl|]; [|reflexivity].
  destruct (isValid _); reflexivity.
Qed.

(** X14: With a usable date string each handler is exactly one
    [openOrCreateNote]: the week handler on the weekly settings and the
    parsed date, the month handlers on the monthly settings and the first
    day of the parsed month, the quarter handler on the quarterly settings
    and the first day of the quarter. *)
Theorem handlers_happy_path :
  (forall t text,
     JS.nonempty (weekDateText document t) = Some text ->
     isValid (dayjs text "MMMM D, YYYY") = true ->
     handleWeekNumberClick settings document t
     = openOrCreateNote (weeklyConfig settings (dayjs text "MMMM D, YYYY")))
  /\ (forall t text monthDate,
        JS.nonempty (textContent t) = Some text ->
        parseDate text ["D MMM YYYY"; "DD MMM YYYY"; "MMM YYYY"] = Some monthDate ->
        handleMonthLabelClick settings t = openOrCreateNote (monthlyConfig settings monthDate))
  /\ (forall b text monthDate,
        JS.nonempty (monthYear_text b) = Some text ->
        parseDate text ["MMM YYYY"; "MMMM YYYY"] = Some monthDate ->
        handleMonthClick settings b = openOrCreateNote (monthlyConfig settings monthDate)
        /\ handleQuarterClick settings b
           = openOrCreateNote (quarterlyConfig settings monthDate)).
Proof.
  split; [|split].
  - intros t text Ht Hv. unfold handleWeekNumberClick, weekDateText in *. cbv zeta in *.
    destruct (findWeekIndex _ _ _ _ =? -1)%Z; [discriminate Ht|].
    destruct (dayTiles document !! _) as [tile|]; [|discriminate Ht].
    destruct (abbr tile) as [abbrEl|]; [|discriminate Ht].
    destruct (aria_label abbrEl) as [[|c s]|]; try discriminate Ht.
    cbn in Ht. injection Ht as <-. cbn [JS.or_else JS.truthy]. rewrite Hv. reflexivity.
  - intros t text d Ht Hp. unfold handleMonthLabelClick. rewrite Ht, Hp. reflexivity.
  - intros b text d Ht Hp. unfold handleMonthClick, handleQuarterClick.
    rewrite Ht, Hp. split; reflexivity.
Qed.

Lemma handler_shapes :
  (forall t, returns_or_opens (handleWeekNumberClick settings document t))
  /\ (forall t, returns_or_opens (handleMonthLabelClick settings t))
  /\ (forall b, returns_or_opens (handleMonthClick settings b))
  /\ (forall b, returns_or_opens (handleQuarterClick settings b))
  /\ (forall daily d, returns_or_opens (createDailyNote daily d)).
Proof.
  unfold returns_or_opens. repeat split.
  - intros t. unfold handleWeekNumberClick. cbv zeta.
    destruct (findWeekIndex _ _ _ _ =? -1)%Z; [left; reflexivity|].
    destruct (dayTiles document !! _) as [tile|]; [|left; reflexivity].
    destruct (abbr tile) as [abbrEl|]; [|left; reflexivity].
    destruct (isValid _); cbn [negb]; [right; eauto|left; reflexivity].
  - intros t. unfold handleMonthLabelClick.
    destruct (JS.nonempty _); [|left; reflexivity].
    destruct (parseDate _ _); [right; eauto|left; reflexivity].
  - intros b. unfold handleMonthClick.
    destruct (JS.nonempty _); [|left; reflexivity].
    destruct (parseDate _ _); [right; eauto|left; reflexivity].
  - intros b. unfold handleQuarterClick.
    destruct (JS.nonempty _); [|left; reflexivity].
    destruct (parseDate _ _); [right; eauto|left; reflexivity].
  - intros daily d. unfold createDailyNote.
    destruct (instance daily) as [[[o|]]|]; [right; eauto|left; reflexivity..].
Qed.

(** X15: One click never creates more than one note and never opens the
    editor more than once, whatever the page, the settings and the vault:
    this holds for the week, month-label, month, quarter and navigation
    handlers and for the daily-note menu item. *)
Theorem one_note_per_click app (v : gmap string TAbstractFile) :
  let at_most_one (m : M unit) :=
    (count_calls is_creation (calls_of m app v) <= 1)%nat
    /\ (count_calls opens_editor (calls_of m app v) <= 1)%nat in
  (forall t, at_most_one (handleWeekNumberClick settings document t))
  /\ (forall t, at_most_one (handleMonthLabelClick settings t))
  /\ (forall b, at_most_one (handleMonthClick settings b))
  /\ (forall b, at_most_one (handleQuarterClick settings b))
  /\ (forall target, at_most_one (handleMonthNavLabelClickCapture settings target))
  /\ (forall daily d, at_most_one (createDailyNote daily d)).
Proof.
  cbv zeta. destruct handler_shapes as (Hw & Hl & Hm & Hq & Hd).
  repeat split; intros; try (apply returns_or_opens_counts; auto; fail).
  all: unfold handleMonthNavLabelClickCapture;
    destruct (closest_label target) as [b|]; [|cbn; lia];
    destruct (closest_quarter target), (closest_month_year target);
    apply returns_or_opens_counts; auto.
Qed.

End HandlerCoverage.

Lemma handlers_happy_path_witness :
  handleQuarterClick someSettings (labelOf (Some "May 2024"))
  = openOrCreateNote
      (quarterlyConfig (D := simpleDayjs) someSettings (simple_dayjs "May 2024" "MMM YYYY")).
Proof.
  apply (proj2 (proj2 (handlers_happy_path (D := simpleDayjs) someSettings emptyDocument))
           (labelOf (Some "May 2024")) "May 2024" (simple_dayjs "May 2024" "MMM YYYY")).
  - reflexivity.
  - vm_compute. reflexivity.
Defined.

Lemma week_click_reads_first_day_witness :
  handleWeekNumberClick (D := simpleDayjs) someSettings twoWeekPage (weekTile 2)
  = (if sd_valid (simple_dayjs "January 8, 2024" "MMMM D, YYYY")
     then openOrCreateNote
            (weeklyConfig (D := simpleDayjs) someSettings
               (simple_dayjs "January 8, 2024" "MMMM D, YYYY"))
     else ret tt).
Proof.
  rewrite (week_click_reads_first_day (D := simpleDayjs) someSettings twoWeekPage
             [weekTile 1] (weekTile 2) []).
  - reflexivity.
  - reflexivity.
  - constructor.
Defined.

Lemma daily_lookup_enabled app (v : gmap string TAbstractFile) daily :
  result_of (Host.internalPluginLookup "daily-notes") app v = Some daily ->
  enabled daily = true ->
  daily_notes_enabled app.
Proof.
  unfold result_of, Host.internalPluginLookup, daily_notes_enabled. cbn [fst].
  destruct (app_internalPlugins app) as [pm|]; [|discriminate].
  destruct (manager_internalPlugins pm) as [ps|] eqn:Eps; [|discriminate].
  intros H He. exists pm, ps, daily. auto.
Qed.

Lemma templater_lookup_installed app (v : gmap string TAbstractFile) :
  result_of getTemplaterPlugin app v = Some {| templater := true |} ->
  templater_installed app.
Proof.
  unfold result_of, getTemplaterPlugin, Host.pluginLookup, templater_installed. cbn [fst].
  destruct (app_plugins app) as [pm|]; [|discriminate].
  destruct (manager_plugins pm) as [ps|] eqn:Eps; [|discriminate].
  intros H. exists pm, ps, {| templater := true |}. auto.
Qed.

(** X16: For a label that is not empty the context menu always starts
    with the item that opens the create-note dialog on the parsed date.  It
    holds a second item, which makes the daily note of that date, exactly
    when the core Daily Notes plugin is enabled and Templater is installed
    with its [templater] object. *)
Theorem context_menu_items {D : DayjsLib} app (v : gmap string TAbstractFile) t destDate :
  JS.nonempty (dayText t) = Some destDate ->
  let dayjsDate := dayjs destDate "MMMM D, YYYY" in
  let createNote :=
    {| title := "Create a note for this date"; icon := "create-new";
       onClick := OpenCreateNoteModal dayjsDate |} in
  (daily_notes_enabled app /\ templater_installed app ->
     exists daily,
       result_of (Host.internalPluginLookup "daily-notes") app v = Some daily
       /\ result_of (handleMonthDayContextMenu t) app v
          = Some [createNote;
                  {| title := "Create daily note for this date"; icon := "calendar-plus";
                     onClick := RunAsync (createDailyNote daily dayjsDate) |}])
  /\ (~ (daily_notes_enabled app /\ templater_installed app) ->
      result_of (handleMonthDayContextMenu t) app v = Some [createNote]).
Proof.
  intros Hd. cbv zeta. unfold dayText in Hd.
  unfold result_of at 2 3, handleMonthDayContextMenu.
  destruct (abbr t) as [abbrItem|]; [|discriminate Hd]. rewrite Hd.
  rewrite bind_run, internalPluginLookup_run. cbv beta iota zeta.
  rewrite bind_run, getTemplaterPlugin_run. cbv beta iota zeta.
  split.
  - intros [(ipm & ips & daily & Hipm & Hips & Hdaily & Hen)
            (pm & ps & [[|]] & Hpm & Hps & Hpl & Ht)]; [|discriminate Ht].
    exists daily.
    assert (Hr1 : result_of (Host.internalPluginLookup "daily-notes") app v = Some daily).
    { unfold result_of, Host.internalPluginLookup. cbn [fst]. rewrite Hipm, Hips. exact Hdaily. }
    assert (Hr2 : result_of getTemplaterPlugin app v = Some {| templater := true |}).
    { unfold result_of, getTemplaterPlugin, Host.pluginLookup. cbn [fst].
      rewrite Hpm, Hps. exact Hpl. }
    rewrite Hr1, Hr2, Hen. split; reflexivity.
  - intros Hnot.
    destruct (result_of (Host.internalPluginLookup "daily-notes") app v) as [daily|] eqn:E1;
      [|reflexivity].
    destruct (result_of getTemplaterPlugin app v) as [[[|]]|] eqn:E2; try reflexivity.
    destruct (enabled daily) eqn:E3; [|reflexivity].
    exfalso. apply Hnot. split.
    + exact (daily_lookup_enabled _ _ _ E1 E3).
    + exact (templater_lookup_installed _ _ E2).
Qed.

Lemma context_menu_items_witness :
  exists items,
    result_of (handleMonthDayContextMenu (dayTile 1 (Some "January 8, 2024")))
      withDailyNotes ∅ = Some items
    /\ length items = 2%nat.
Proof.
  destruct (context_menu_items withDailyNotes ∅ (dayTile 1 (Some "January 8, 2024"))
              "January 8, 2024" eq_refl) as [H _].
  destruct H as [daily [_ H]].
  - split.
    + eexists _, _, _. repeat split; vm_compute; reflexivity.
    + eexists _, _, _. repeat split; vm_compute; reflexivity.
  - eexists. split; [exact H|reflexivity].
Defined.

(** X17: for a month index [m] in [0..11] the quarter's first month is a
    multiple of 3 that is at most [m] and at least [m - 2], so the clicked
    month lies in the quarter that is opened; the first month of a quarter
    is its own quarter start, and two months have the same quarter start
    exactly when they lie in the same quarter. *)
Theorem quarter_contains_month m :
  0 <= m <= 11 ->
  quarterStartMonth m <= m <= quarterStartMonth m + 2
  /\ quarterStartMonth m mod 3 = 0
  /\ quarterStartMonth (quarterStartMonth m) = quarterStartMonth m
  /\ forall m', 0 <= m' <= 11 ->
       (quarterStartMonth m' = quarterStartMonth m <-> m' / 3 = m / 3).
Proof.
  intros Hm. pose proof (quarterStartMonth_cases m Hm) as H.
  pose proof (Z.div_mod m 3 ltac:(lia)) as H1.
  pose proof (Z.mod_pos_bound m 3 ltac:(lia)) as H2.
  assert (Hq : 0 <= m / 3 < 4)
    by (split; [apply Z.div_pos; lia | apply Z.div_lt_upper_bound; lia]).
  split; [rewrite H; lia|]. split; [|split].
  - rewrite H, Z.mul_comm. apply Z.mod_mul. lia.
  - rewrite (quarterStartMonth_cases (quarterStartMonth m)) by (rewrite H; lia).
    rewrite H, (Z.mul_comm 3 (m / 3)), Z.div_mul by lia. lia.
  - intros m' Hm'. rewrite H, (quarterStartMonth_cases m' Hm'). lia.
Qed.

Lemma quarter_contains_month_witness :
  quarterStartMonth 4 <= 4 <= quarterStartMonth 4 + 2.
Proof. apply (quarter_contains_month 4). lia. Defined.
